(** * VaultFlow: the authentication modal and the vault dashboard

    A shallow embedding of the event handlers of
    [src/components/AuthModal.tsx], of the backend-synchronised dashboard
    (the Firestore/Storage version of [Dashboard]) and of the local-mock
    dashboard of [src/pages/Dashboard.tsx], together with the properties
    of the specification that concern them.

    The handlers are [async] functions that read the React state captured
    at render time, call the Firebase SDK, and write React state.  They are
    embedded as computations in a small state-and-exception monad over

    - the component state (one record per component),
    - the state of the managed backend (identity provider, document store,
      blob store), and
    - a chronological log of every SDK call with its outcome and of every
      callback into the surrounding page.

    What the backend answers (which calls reject, which user a credential
    belongs to) is not decided by the program: it is a parameter of every
    definition, the [Backend] record. *)

From Stdlib Require Import ZArith QArith String Ascii List Bool Lia Permutation.
From stdpp Require Import base gmap strings list sorting pretty.
Import ListNotations.
Local Open Scope string_scope.
Local Open Scope list_scope.

(* ===================================================================== *)
(** * JavaScript values the handlers compute with *)
(* ===================================================================== *)

Module Js.

(** A string is falsy exactly when it is empty. *)
Definition truthy (s : string) : bool := negb (String.eqb s "").

(** [s || d] on strings. *)
Definition or_else (s d : string) : string := if truthy s then s else d.

(** Truthiness of [string | undefined] and of [string | null]. *)
Definition truthy_opt (o : option string) : bool :=
  match o with
  | Some s => truthy s
  | None => false
  end.

(** The strings of this development are byte strings.  A string of
    ASCII characters is its own sequence of UTF-16 code units, and on
    such strings the functions below that depend on the encoding and on
    the Unicode case tables ([toLowerCase], [toUpperCase], [substring])
    are those of JavaScript.  Outside ASCII they are not (a capital
    letter with an accent is not lowered, a sharp s is not raised to two
    letters, an index counts bytes), so every property that goes
    through them is stated for strings of ASCII characters. *)
Definition ascii_char (c : ascii) : bool :=
  match c with
  | Ascii _ _ _ _ _ _ _ b7 => negb b7
  end.

Fixpoint ascii_only (s : string) : bool :=
  match s with
  | EmptyString => true
  | String c s' => ascii_char c && ascii_only s'
  end.

(** [String.prototype.toLowerCase] on a string of ASCII characters: the
    letters A-Z are lowered, every other character is left as it is. *)
Definition lower_ascii (c : ascii) : ascii :=
  let n := N_of_ascii c in
  if ((65 <=? n) && (n <=? 90))%N then ascii_of_N (n + 32) else c.

Fixpoint toLowerCase (s : string) : string :=
  match s with
  | EmptyString => EmptyString
  | String c s' => String (lower_ascii c) (toLowerCase s')
  end.

(** [String.prototype.includes]: [q] occurs in [s] as a substring. *)
Fixpoint includes (s q : string) : bool :=
  String.prefix q s ||
  match s with
  | EmptyString => false
  | String _ s' => includes s' q
  end.

(** [String.prototype.startsWith]. *)
Definition startsWith (s p : string) : bool := String.prefix p s.

(** The test both search filters apply to a name:
    [name.toLowerCase().includes(searchQuery.toLowerCase())]. *)
Definition matchesQuery (name searchQuery : string) : bool :=
  includes (toLowerCase name) (toLowerCase searchQuery).

(** [String.prototype.toUpperCase] on a string of ASCII characters: the
    letters a-z are raised, every other character is left as it is. *)
Definition upper_ascii (c : ascii) : ascii :=
  let n := N_of_ascii c in
  if ((97 <=? n) && (n <=? 122))%N then ascii_of_N (n - 32) else c.

Fixpoint toUpperCase (s : string) : string :=
  match s with
  | EmptyString => EmptyString
  | String c s' => String (upper_ascii c) (toUpperCase s')
  end.

(** [s.substring(from, to)] on a string of ASCII characters, for indices
    within the natural numbers: the two indices are put in order and
    both are cut off at the length. *)
Definition substring (s : string) (from to : nat) : string :=
  String.substring (Nat.min from to) (Nat.max from to - Nat.min from to) s.

(** [s.split(sep)] for a one-character separator: the pieces between
    the occurrences of [sep], of which there is always at least one. *)
Fixpoint split (sep : ascii) (s : string) : list string :=
  match s with
  | EmptyString => [EmptyString]
  | String c s' =>
      if Ascii.eqb c sep then EmptyString :: split sep s'
      else match split sep s' with
           | piece :: pieces => String c piece :: pieces
           | [] => [String c EmptyString]
           end
  end.

End Js.

(* ===================================================================== *)
(** * The managed backend *)
(* ===================================================================== *)

Module Sdk.

(** The user object of the identity provider. *)
Record User := mkUser {
  uid : string;
  user_email : string;
  emailVerified : bool
}.

(** A browser [File]: only the attributes the handlers read. *)
Record File := mkFile {
  file_name : string;
  file_size : Z;
  file_type : string
}.

(** Field values of a stored document. *)
Inductive Value :=
| VStr (s : string)
| VNum (n : Z)
| VNull
| VTime (seconds : Z).

(** Field values as handed to [addDoc]: a literal, or the
    [serverTimestamp()] sentinel that the store replaces by its own
    clock when it writes the document. *)
Inductive FieldInput :=
| Lit (v : Value)
| serverTimestamp.

(** A document: its generated id and its schemaless data. *)
Record Doc := mkDoc {
  doc_id : string;
  doc_data : gmap string Value
}.

Inductive Mail :=
| VerificationMail (to : User)
| PasswordResetMail (address : string).

(** State of the backend and of the browser window. *)
Record World := mkWorld {
  currentUser : option User;               (* [auth.currentUser] *)
  outbox : list Mail;                      (* mails the provider has sent *)
  firestore : gmap string (list Doc);      (* collection path to documents *)
  storage : gmap string File;              (* object path to blob *)
  clock : Z;                               (* server time, in seconds *)
  nonce : N;                               (* ids generated so far *)
  location_hash : string                   (* [window.location.hash] *)
}.

(** The calls the handlers make into the SDK. *)
Inductive SdkCall :=
| CreateUserWithEmailAndPassword (email password : string)
| SignInWithEmailAndPassword (email password : string)
| SignInWithPopup
| SendEmailVerification (u : User)
| SendPasswordResetEmail (address : string)
| SignOut
| UploadBytesResumable (path : string) (f : File)
| GetDownloadURL (path : string)
| AddDoc (coll : string) (data : list (string * FieldInput))
| DeleteObject (path : string)
| DeleteDoc (coll : string) (id : string).

(** What the environment decides. *)
Record Backend := mkBackend {
  (** [Some code]: the call rejects with an error carrying that code. *)
  fault : SdkCall -> option string;
  (** The user of the credential a successful authentication call
      resolves to. *)
  credential : SdkCall -> User;
  (** The [(bytesTransferred, totalBytes)] snapshots an upload reports
      before it completes or fails. *)
  progress : SdkCall -> list (Z * Z);
  (** Automatically generated document ids. *)
  autoId : N -> string;
  (** The retrieval URL of a stored object. *)
  urlOf : string -> string
}.

(** What is observable of a handler run, in order. *)
Inductive Event :=
| Call (c : SdkCall) (rejected : option string)
| OnClose                                  (* the [onClose] prop *)
| OnNavigate (path : string)               (* the [onNavigate] prop *)
| SetLocationHash (h : string)
| ConsoleError.

(* ------------------------------------------------------------------- *)
(** ** Effect of a call that succeeds *)

Definition set_currentUser (o : option User) (w : World) : World :=
  mkWorld o (outbox w) (firestore w) (storage w) (clock w) (nonce w)
          (location_hash w).

Definition send_mail (m : Mail) (w : World) : World :=
  mkWorld (currentUser w) (outbox w ++ [m]) (firestore w) (storage w)
          (clock w) (nonce w) (location_hash w).

Definition set_firestore (fs : gmap string (list Doc)) (w : World) : World :=
  mkWorld (currentUser w) (outbox w) fs (storage w) (clock w) (nonce w)
          (location_hash w).

Definition set_storage (st : gmap string File) (w : World) : World :=
  mkWorld (currentUser w) (outbox w) (firestore w) st (clock w) (nonce w)
          (location_hash w).

Definition tick (w : World) : World :=
  mkWorld (currentUser w) (outbox w) (firestore w) (storage w)
          (clock w + 1) (N.succ (nonce w)) (location_hash w).

Definition set_location_hash (h : string) (w : World) : World :=
  mkWorld (currentUser w) (outbox w) (firestore w) (storage w) (clock w)
          (nonce w) h.

(** The documents of a collection; an absent collection is empty. *)
Definition docsAt (coll : string) (w : World) : list Doc :=
  default [] (firestore w !! coll).

(** The stored form of the data given to [addDoc]. *)
Definition resolve_field (now : Z) (f : FieldInput) : Value :=
  match f with
  | Lit v => v
  | serverTimestamp => VTime now
  end.

Definition stored_data (now : Z) (data : list (string * FieldInput))
  : gmap string Value :=
  list_to_map (map (fun kv => (fst kv, resolve_field now (snd kv))) data).

Definition effect (b : Backend) (c : SdkCall) (w : World) : World :=
  match c with
  | CreateUserWithEmailAndPassword _ _
  | SignInWithEmailAndPassword _ _
  | SignInWithPopup => set_currentUser (Some (credential b c)) w
  | SendEmailVerification u => send_mail (VerificationMail u) w
  | SendPasswordResetEmail a => send_mail (PasswordResetMail a) w
  | SignOut => set_currentUser None w
  | UploadBytesResumable path f => set_storage (<[path := f]> (storage w)) w
  | GetDownloadURL _ => w
  | AddDoc coll data =>
      let d := mkDoc (autoId b (nonce w)) (stored_data (clock w) data) in
      tick (set_firestore (<[coll := docsAt coll w ++ [d]]> (firestore w)) w)
  | DeleteObject path => set_storage (delete path (storage w)) w
  | DeleteDoc coll id =>
      set_firestore
        (alter (filter (fun d => doc_id d ≠ id)) coll (firestore w)) w
  end.

End Sdk.

(* ===================================================================== *)
(** * Handler computations *)
(* ===================================================================== *)

Module Handler.
Import Sdk.

(** How a piece of an [async] handler ends: with a value, with a thrown
    error (its [code]), with a [return] out of the handler, or never,
    when an awaited promise is never settled. *)
Inductive Res (A : Type) :=
| Ok (a : A)
| Throw (code : string)
| Return
| Pending.
Arguments Ok {A} a.
Arguments Throw {A} code.
Arguments Return {A}.
Arguments Pending {A}.

(** Component state, backend state, and the log so far. *)
Record Sys (S : Type) := mkSys {
  ui : S;
  world : World;
  log : list Event
}.
Arguments mkSys {S} ui world log.
Arguments ui {S} s.
Arguments world {S} s.
Arguments log {S} s.

Definition M (S A : Type) : Type := Sys S -> Res A * Sys S.

Definition ret {S A} (a : A) : M S A := fun s => (Ok a, s).

Definition bind {S A B} (m : M S A) (k : A -> M S B) : M S B :=
  fun s =>
    match m s with
    | (Ok a, s') => k a s'
    | (Throw e, s') => (Throw e, s')
    | (Return, s') => (Return, s')
    | (Pending, s') => (Pending, s')
    end.

(** [return;] *)
Definition return_ {S A} : M S A := fun s => (Return, s).

Definition get {S} : M S S := fun s => (Ok (ui s), s).

(** A React state setter. *)
Definition modify {S} (f : S -> S) : M S unit :=
  fun s => (Ok tt, mkSys (f (ui s)) (world s) (log s)).

Definition emit {S} (e : Event) : M S unit :=
  fun s => (Ok tt, mkSys (ui s) (world s) (log s ++ [e])).

Definition modify_world {S} (f : World -> World) : M S unit :=
  fun s => (Ok tt, mkSys (ui s) (f (world s)) (log s)).

Definition get_world {S} : M S World := fun s => (Ok (world s), s).

Declare Scope handler_scope.
Delimit Scope handler_scope with handler.
Notation "x <- m ;; k" := (bind m (fun x => k))
  (at level 100, m at next level, right associativity) : handler_scope.
Notation "m ;; k" := (bind m (fun _ => k))
  (at level 100, right associativity) : handler_scope.
Local Open Scope handler_scope.

(** [try { body } catch (err) { handler(err.code) } finally { fin }].
    A [return] in [body] still runs [fin]; nothing runs after a promise
    that never settles. *)
Definition after_finally {S A} (r : Res A) (fin : M S unit) : M S A :=
  fun s =>
    match fin s with
    | (Ok _, s') => (r, s')
    | (Throw e, s') => (Throw e, s')
    | (Return, s') => (Return, s')
    | (Pending, s') => (Pending, s')
    end.

Definition try_catch_finally {S A}
    (body : M S A) (handler : string -> M S A) (fin : M S unit) : M S A :=
  fun s =>
    match body s with
    | (Pending, s1) => (Pending, s1)
    | (Throw e, s1) =>
        match handler e s1 with
        | (Pending, s2) => (Pending, s2)
        | (r, s2) => after_finally r fin s2
        end
    | (r, s1) => after_finally r fin s1
    end.

Definition console_error {S} : M S unit := emit ConsoleError.

Section Calls.
Variable b : Backend.
Context {S : Type}.

(** One SDK call: logged with its outcome; its effect on the backend
    happens only when it does not reject. *)
Definition invoke (c : SdkCall) : M S unit :=
  fun s =>
    match fault b c with
    | Some code =>
        (Throw code, mkSys (ui s) (world s) (log s ++ [Call c (Some code)]))
    | None =>
        (Ok tt, mkSys (ui s) (effect b c (world s)) (log s ++ [Call c None]))
    end.

Definition createUserWithEmailAndPassword (email password : string)
  : M S User :=
  let c := CreateUserWithEmailAndPassword email password in
  invoke c ;; ret (credential b c).

Definition signInWithEmailAndPassword (email password : string)
  : M S User :=
  let c := SignInWithEmailAndPassword email password in
  invoke c ;; ret (credential b c).

Definition signInWithPopup : M S User :=
  invoke SignInWithPopup ;; ret (credential b SignInWithPopup).

Definition sendEmailVerification (u : User) : M S unit :=
  invoke (SendEmailVerification u).

Definition sendPasswordResetEmail (address : string) : M S unit :=
  invoke (SendPasswordResetEmail address).

Definition signOut : M S unit := invoke SignOut.

Definition getDownloadURL (path : string) : M S string :=
  invoke (GetDownloadURL path) ;; ret (urlOf b path).

Definition addDoc (coll : string) (data : list (string * FieldInput))
  : M S unit :=
  invoke (AddDoc coll data).

Definition deleteObject (path : string) : M S unit :=
  invoke (DeleteObject path).

Definition deleteDoc (coll id : string) : M S unit :=
  invoke (DeleteDoc coll id).

(** [doc(collection(db, coll)).id]: a fresh id made on the client,
    without a round trip. *)
Definition newDocId (coll : string) : M S string :=
  w <- get_world ;;
  modify_world tick ;;
  ret (autoId b (nonce w)).

(** An [async] callback whose promise nobody awaits or catches, run
    inside a [new Promise] executor that resolves only at its end: if
    the callback throws, the promise is never settled. *)
Definition unsettled_on_throw {A} (m : M S A) : M S A :=
  fun s =>
    match m s with
    | (Throw _, s') => (Pending, s')
    | r => r
    end.
End Calls.

(** [for (const x of l) f(x)] *)
Fixpoint for_each {S A} (l : list A) (f : A -> M S unit) : M S unit :=
  match l with
  | [] => ret tt
  | x :: l' => f x ;; for_each l' f
  end.

(** Running a handler from a component state and a backend state. *)
Definition run {S A} (m : M S A) (st : S) (w : World) : Res A * Sys S :=
  m (mkSys st w []).

End Handler.

(* ===================================================================== *)
(** * [src/components/AuthModal.tsx] *)
(* ===================================================================== *)

Module AuthModal.
Import Sdk Handler.
Local Open Scope handler_scope.

Inductive Tab := signin | signup.

Inductive Mode := default_mode | forgot_password | reset_sent | verification_sent.

(** The component's [useState] cells. *)
Record State := mkState {
  activeTab : Tab;
  mode : Mode;
  email : string;
  password : string;
  showPassword : bool;
  isLoading : bool;
  error : option string
}.

Definition setMode (m : Mode) : M State unit :=
  modify (fun st => mkState (activeTab st) m (email st) (password st)
                            (showPassword st) (isLoading st) (error st)).

Definition setIsLoading (v : bool) : M State unit :=
  modify (fun st => mkState (activeTab st) (mode st) (email st) (password st)
                            (showPassword st) v (error st)).

Definition setError (v : option string) : M State unit :=
  modify (fun st => mkState (activeTab st) (mode st) (email st) (password st)
                            (showPassword st) (isLoading st) v).

(** [onClose()] *)
Definition onClose : M State unit := emit OnClose.

(** [window.location.hash = h] *)
Definition assign_location_hash (h : string) : M State unit :=
  modify_world (set_location_hash h) ;; emit (SetLocationHash h).

Section Handlers.
Variable b : Backend.
(** [getFirebaseErrorMessage] of [../lib/firebaseUtils], which maps an
    error code to the message shown; the handlers only pass its result
    to [setError]. *)
Variable getFirebaseErrorMessage : string -> string.

Definition handleSignUp : M State unit :=
  (* e.preventDefault() *)
  st <- get ;;
  setError None ;;
  setIsLoading true ;;
  if negb (Js.truthy (email st)) || negb (Js.truthy (password st)) then
    setError (Some "Please fill in all required fields.") ;;
    setIsLoading false ;;
    return_
  else
    try_catch_finally
      (userCredential <- createUserWithEmailAndPassword b (email st) (password st) ;;
       sendEmailVerification b userCredential ;;
       signOut b ;;
       setMode verification_sent)
      (fun code =>
         console_error ;;
         setError (Some (getFirebaseErrorMessage code)))
      (setIsLoading false).

Definition handleSignIn : M State unit :=
  (* e.preventDefault() *)
  st <- get ;;
  setError None ;;
  setIsLoading true ;;
  if negb (Js.truthy (email st)) || negb (Js.truthy (password st)) then
    setError (Some "Please enter both email and password.") ;;
    setIsLoading false ;;
    return_
  else
    try_catch_finally
      (userCredential <- signInWithEmailAndPassword b (email st) (password st) ;;
       (if negb (emailVerified userCredential) then
          sendEmailVerification b userCredential ;;
          signOut b ;;
          setMode verification_sent ;;
          return_
        else ret tt) ;;
       onClose ;;
       assign_location_hash "#/dashboard")
      (fun code =>
         console_error ;;
         setError (Some (getFirebaseErrorMessage code)))
      (setIsLoading false).

Definition handleGoogleSignIn : M State unit :=
  setError None ;;
  setIsLoading true ;;
  try_catch_finally
    ((* new GoogleAuthProvider(), prompt: 'select_account' *)
     result <- signInWithPopup b ;;
     (if negb (emailVerified result) then
        sendEmailVerification b result ;;
        signOut b ;;
        setMode verification_sent ;;
        return_
      else ret tt) ;;
     onClose ;;
     assign_location_hash "#/dashboard")
    (fun code =>
       console_error ;;
       if negb (String.eqb code "auth/popup-closed-by-user") then
         setError (Some (getFirebaseErrorMessage code))
       else ret tt)
    (setIsLoading false).

Definition handlePasswordReset : M State unit :=
  (* e.preventDefault() *)
  st <- get ;;
  setError None ;;
  if negb (Js.truthy (email st)) then
    setError (Some "Please enter your email address.") ;;
    return_
  else
    setIsLoading true ;;
    try_catch_finally
      (sendPasswordResetEmail b (email st) ;;
       setMode reset_sent)
      (fun code =>
         console_error ;;
         setError (Some (getFirebaseErrorMessage code)))
      (setIsLoading false).
End Handlers.

End AuthModal.

(* ===================================================================== *)
(** * The backend-synchronised dashboard *)
(* ===================================================================== *)

Module Dashboard.
Import Sdk Handler.
Local Open Scope handler_scope.

(** ** Types *)

Module FileItem.
Record t := mk {
  id : string;
  name : string;
  size : Z;
  type : string;
  folderId : option string;
  storagePath : string;
  downloadURL : string;
  createdAt : option Z
}.
End FileItem.

Module FolderItem.
Record t := mk {
  id : string;
  name : string;
  createdAt : option Z
}.
End FolderItem.

Module NoteItem.
Record t := mk {
  id : string;
  title : string;
  content : string;
  createdAt : option Z
}.
End NoteItem.

Module MemberItem.
Record t := mk {
  id : string;
  name : string;
  role : string;
  createdAt : option Z
}.
End MemberItem.

Inductive TabView := overview | files_tab | notes_tab | team.

Inductive ModalType := folder | file | note | member.

(** The four collection names a deletion can address. *)
Inductive Collection := folders | files | notes | teamMembers.

Definition collection_name (c : Collection) : string :=
  match c with
  | folders => "folders"
  | files => "files"
  | notes => "notes"
  | teamMembers => "teamMembers"
  end.

Module DeleteConfirmation.
Record t := mk {
  id : string;
  type : Collection;
  name : string;
  storagePath : option string
}.
End DeleteConfirmation.

Module FormData.
Record t := mk {
  name : string;
  title : string;
  content : string;
  role : string
}.
Definition initial : t := mk "" "" "" "Viewer".
End FormData.

Definition FILE_LIMIT : nat := 5.

(** ** State, grouped as in the component *)

(** Data state. *)
Record Data := mkData {
  d_folders : list FolderItem.t;
  d_files : list FileItem.t;
  d_notes : list NoteItem.t;
  d_members : list MemberItem.t
}.

(** UI state. *)
Record Ui := mkUi {
  activeTab : TabView;
  currentFolderId : option string;
  isLoading : bool;
  isSubmitting : bool;
  uploadProgress : Q;
  searchQuery : string;
  isUpgradeModalOpen : bool
}.

(** Modal and confirmation states. *)
Record Modals := mkModals {
  modalOpen : option ModalType;
  deleteConfirmation : option DeleteConfirmation.t
}.

(** Form states. *)
Record Form := mkForm {
  selectedFile : option File;
  formData : FormData.t
}.

Record State := mkState {
  user : option User;          (* from [useAuth()] *)
  data : Data;
  view : Ui;
  modals : Modals;
  form : Form
}.

(** Derived state. *)
Definition hasReachedLimit (st : State) : bool :=
  (FILE_LIMIT <=? length (d_files (data st)))%nat.

(** *** Setters *)

Definition with_data (f : Data -> Data) (st : State) : State :=
  mkState (user st) (f (data st)) (view st) (modals st) (form st).
Definition with_view (f : Ui -> Ui) (st : State) : State :=
  mkState (user st) (data st) (f (view st)) (modals st) (form st).
Definition with_modals (f : Modals -> Modals) (st : State) : State :=
  mkState (user st) (data st) (view st) (f (modals st)) (form st).
Definition with_form (f : Form -> Form) (st : State) : State :=
  mkState (user st) (data st) (view st) (modals st) (f (form st)).

Definition setFolders (v : list FolderItem.t) : State -> State :=
  with_data (fun d => mkData v (d_files d) (d_notes d) (d_members d)).
Definition setFiles (v : list FileItem.t) : State -> State :=
  with_data (fun d => mkData (d_folders d) v (d_notes d) (d_members d)).
Definition setNotes (v : list NoteItem.t) : State -> State :=
  with_data (fun d => mkData (d_folders d) (d_files d) v (d_members d)).
Definition setMembers (v : list MemberItem.t) : State -> State :=
  with_data (fun d => mkData (d_folders d) (d_files d) (d_notes d) v).

Definition setActiveTab (v : TabView) : State -> State :=
  with_view (fun u => mkUi v (currentFolderId u) (isLoading u) (isSubmitting u)
                            (uploadProgress u) (searchQuery u) (isUpgradeModalOpen u)).
Definition setCurrentFolderId (v : option string) : State -> State :=
  with_view (fun u => mkUi (activeTab u) v (isLoading u) (isSubmitting u)
                            (uploadProgress u) (searchQuery u) (isUpgradeModalOpen u)).
Definition setIsLoading (v : bool) : State -> State :=
  with_view (fun u => mkUi (activeTab u) (currentFolderId u) v (isSubmitting u)
                            (uploadProgress u) (searchQuery u) (isUpgradeModalOpen u)).
Definition setIsSubmitting (v : bool) : State -> State :=
  with_view (fun u => mkUi (activeTab u) (currentFolderId u) (isLoading u) v
                            (uploadProgress u) (searchQuery u) (isUpgradeModalOpen u)).
Definition setUploadProgress (v : Q) : State -> State :=
  with_view (fun u => mkUi (activeTab u) (currentFolderId u) (isLoading u)
                            (isSubmitting u) v (searchQuery u) (isUpgradeModalOpen u)).
Definition setSearchQuery (v : string) : State -> State :=
  with_view (fun u => mkUi (activeTab u) (currentFolderId u) (isLoading u)
                            (isSubmitting u) (uploadProgress u) v (isUpgradeModalOpen u)).
Definition setIsUpgradeModalOpen (v : bool) : State -> State :=
  with_view (fun u => mkUi (activeTab u) (currentFolderId u) (isLoading u)
                            (isSubmitting u) (uploadProgress u) (searchQuery u) v).

Definition setModalOpen (v : option ModalType) : State -> State :=
  with_modals (fun m => mkModals v (deleteConfirmation m)).
Definition setDeleteConfirmation (v : option DeleteConfirmation.t) : State -> State :=
  with_modals (fun m => mkModals (modalOpen m) v).

Definition setSelectedFile (v : option File) : State -> State :=
  with_form (fun f => mkForm v (formData f)).
Definition setFormData (v : FormData.t) : State -> State :=
  with_form (fun f => mkForm (selectedFile f) v).

(** ** Firestore listeners *)

Inductive Direction := asc | desc.

Record Query := mkQuery {
  q_path : string;
  q_field : string;
  q_direction : Direction
}.

Definition orderBy (field : string) (d : Direction) : string * Direction :=
  (field, d).
Definition collection (path : string) : string := path.
Definition query (path : string) (o : string * Direction) : Query :=
  mkQuery path (fst o) (snd o).

(** The timestamp a document holds in a field, if it holds one. *)
Definition time_field (k : string) (o : gmap string Value) : option Z :=
  match o !! k with
  | Some (VTime t) => Some t
  | _ => None
  end.

Definition order_key (q : Query) (d : Doc) : Z :=
  default 0%Z (time_field (q_field q) (doc_data d)).

(** [d1] may come before [d2] in the result of [q]. *)
Definition ordered (q : Query) (d1 d2 : Doc) : Prop :=
  match q_direction q with
  | desc => (order_key q d2 <= order_key q d1)%Z
  | asc => (order_key q d1 <= order_key q d2)%Z
  end.

#[global] Instance ordered_dec q : RelDecision (ordered q).
Proof.
  intros d1 d2. unfold ordered. destruct (q_direction q); apply Z.le_dec.
Defined.

(** The result set of a query: the documents of the collection that
    have the order field, sorted on it.  The store leaves out documents
    without the order field; the collections here are ordered on a
    timestamp, and a document holding another kind of value there counts
    as not having the field. *)
Definition has_order_field (q : Query) (d : Doc) : bool :=
  bool_decide (is_Some (time_field (q_field q) (doc_data d))).

Definition runQuery (q : Query) (w : World) : list Doc :=
  merge_sort (ordered q) (List.filter (has_order_field q) (docsAt (q_path q) w)).

(** [{ id: d.id, ...d.data() }]: the data's own fields come last and
    win. *)
Definition snapshot_object (d : Doc) : gmap string Value :=
  doc_data d ∪ {[ "id" := VStr (doc_id d) ]}.

Definition str_field (k : string) (o : gmap string Value) : string :=
  match o !! k with
  | Some (VStr s) => s
  | _ => ""
  end.

Definition num_field (k : string) (o : gmap string Value) : Z :=
  match o !! k with
  | Some (VNum n) => n
  | _ => 0%Z
  end.

Definition nullable_field (k : string) (o : gmap string Value) : option string :=
  match o !! k with
  | Some (VStr s) => Some s
  | _ => None
  end.

(** The unchecked casts [as FolderItem], [as FileItem], ...: the item
    reads the object's fields by name.  The items are typed records, so
    the casts are those of the program on documents that hold each field
    with the type the dashboard writes it with ([Spec.well_formed]
    below).  A field that is missing or holds another kind of value is
    read here as the empty string (as 0, as no folder), whereas in the
    program it stays [undefined] and the next render that dereferences
    it throws; properties about what is rendered from the store are
    therefore stated for well-formed documents. *)
Definition asFolderItem (o : gmap string Value) : FolderItem.t :=
  FolderItem.mk (str_field "id" o) (str_field "name" o)
                (time_field "createdAt" o).

Definition asFileItem (o : gmap string Value) : FileItem.t :=
  FileItem.mk (str_field "id" o) (str_field "name" o) (num_field "size" o)
              (str_field "type" o) (nullable_field "folderId" o)
              (str_field "storagePath" o) (str_field "downloadURL" o)
              (time_field "createdAt" o).

Definition asNoteItem (o : gmap string Value) : NoteItem.t :=
  NoteItem.mk (str_field "id" o) (str_field "title" o) (str_field "content" o)
              (time_field "createdAt" o).

Definition asMemberItem (o : gmap string Value) : MemberItem.t :=
  MemberItem.mk (str_field "id" o) (str_field "name" o) (str_field "role" o)
                (time_field "createdAt" o).

(** A registered listener: the query it watches and the callback that
    receives each snapshot's documents. *)
Record Listener := mkListener {
  l_query : Query;
  l_callback : list Doc -> State -> State
}.

Definition onSnapshot (q : Query) (cb : list Doc -> State -> State) : Listener :=
  mkListener q cb.

(** The [useEffect] that subscribes: nothing without a user. *)
Definition listeners (st : State) : list Listener :=
  match user st with
  | None => []
  | Some u =>
      let basePath := "users/" +:+ uid u in
      let qFolders :=
        query (collection (basePath +:+ "/folders")) (orderBy "createdAt" desc) in
      let unsubFolders :=
        onSnapshot qFolders (fun docs =>
          setFolders (map (fun d => asFolderItem (snapshot_object d)) docs)) in
      let qFiles :=
        query (collection (basePath +:+ "/files")) (orderBy "createdAt" desc) in
      let unsubFiles :=
        onSnapshot qFiles (fun docs =>
          setFiles (map (fun d => asFileItem (snapshot_object d)) docs)) in
      let qNotes :=
        query (collection (basePath +:+ "/notes")) (orderBy "createdAt" desc) in
      let unsubNotes :=
        onSnapshot qNotes (fun docs =>
          setNotes (map (fun d => asNoteItem (snapshot_object d)) docs)) in
      let qMembers :=
        query (collection (basePath +:+ "/teamMembers")) (orderBy "createdAt" desc) in
      let unsubMembers :=
        onSnapshot qMembers (fun docs st' =>
          setIsLoading false
            (setMembers (map (fun d => asMemberItem (snapshot_object d)) docs) st')) in
      [unsubFolders; unsubFiles; unsubNotes; unsubMembers]
  end.

(** The store delivers the current result set of a listener's query. *)
Definition deliver (l : Listener) (w : World) (st : State) : State :=
  l_callback l (runQuery (l_query l) w) st.

(** Every listener of the component has received the current state of
    the store. *)
Definition synchronise (w : World) (st : State) : State :=
  fold_left (fun acc l => deliver l w acc) (listeners st) st.

(** ** Handlers *)

Section Handlers.
Variable b : Backend.

(** [uploadBytesResumable(ref(storage, path), f)] observed through
    [uploadTask.on('state_changed', progress, reject, complete)] inside
    an awaited [new Promise]: each snapshot updates the progress, a
    failed upload rejects, and a completed upload runs [complete],
    whose last step resolves. *)
Definition upload (path : string) (f : File) (complete : M State unit)
  : M State unit :=
  let uploadTask := UploadBytesResumable path f in
  for_each (progress b uploadTask)
    (fun snapshot =>
       modify (setUploadProgress
                 (inject_Z (fst snapshot) / inject_Z (snd snapshot) * 100)%Q)) ;;
  invoke b uploadTask ;;
  unsettled_on_throw complete.

Definition handleCreate : M State unit :=
  (* e.preventDefault() *)
  st <- get ;;
  match user st, modalOpen (modals st) with
  | Some u, Some type =>
      modify (setIsSubmitting true) ;;
      let basePath := "users/" +:+ uid u in
      try_catch_finally
        ((match type with
          | folder =>
              addDoc b (collection (basePath +:+ "/folders"))
                [ ("name", Lit (VStr (Js.or_else (FormData.name (formData (form st)))
                                                 "Untitled Folder")));
                  ("createdAt", serverTimestamp) ]
          | file =>
              match selectedFile (form st) with
              | None => return_
              | Some selected =>
                  if hasReachedLimit st then
                    modify (setIsUpgradeModalOpen true) ;;
                    return_
                  else
                    fileId <- newDocId b (collection "temp") ;;
                    let storagePath :=
                      "user_uploads/" +:+ uid u +:+ "/" +:+ fileId +:+ "-"
                        +:+ file_name selected in
                    upload storagePath selected
                      (downloadURL <- getDownloadURL b storagePath ;;
                       addDoc b (collection (basePath +:+ "/files"))
                         [ ("name", Lit (VStr (file_name selected)));
                           ("size", Lit (VNum (file_size selected)));
                           ("type", Lit (VStr (file_type selected)));
                           ("storagePath", Lit (VStr storagePath));
                           ("downloadURL", Lit (VStr downloadURL));
                           ("folderId", Lit (match currentFolderId (view st) with
                                             | Some c => VStr c
                                             | None => VNull
                                             end));
                           ("createdAt", serverTimestamp) ])
              end
          | note =>
              addDoc b (collection (basePath +:+ "/notes"))
                [ ("title", Lit (VStr (Js.or_else (FormData.title (formData (form st)))
                                                  "Untitled Note")));
                  ("content", Lit (VStr (FormData.content (formData (form st)))));
                  ("createdAt", serverTimestamp) ]
          | member =>
              addDoc b (collection (basePath +:+ "/teamMembers"))
                [ ("name", Lit (VStr (FormData.name (formData (form st)))));
                  ("role", Lit (VStr (FormData.role (formData (form st)))));
                  ("createdAt", serverTimestamp) ]
          end) ;;
         modify (setModalOpen None) ;;
         modify (setFormData FormData.initial) ;;
         modify (setSelectedFile None) ;;
         modify (setUploadProgress 0))
        (fun _ => console_error)
        (modify (setIsSubmitting false))
  | _, _ => return_
  end.

Definition confirmDeletion : M State unit :=
  st <- get ;;
  match user st, deleteConfirmation (modals st) with
  | Some u, Some dc =>
      modify (setIsSubmitting true) ;;
      try_catch_finally
        ((match DeleteConfirmation.type dc, DeleteConfirmation.storagePath dc with
          | files, Some path =>
              if Js.truthy path then deleteObject b path else ret tt
          | _, _ => ret tt
          end) ;;
         deleteDoc b ("users/" +:+ uid u +:+ "/"
                        +:+ collection_name (DeleteConfirmation.type dc))
                     (DeleteConfirmation.id dc) ;;
         modify (setDeleteConfirmation None))
        (fun _ => console_error)
        (modify (setIsSubmitting false))
  | _, _ => return_
  end.

(** [signOut] of the auth context, then [onNavigate('/')]. *)
Definition handleSignOut : M State unit :=
  signOut b ;;
  emit (OnNavigate "/").
End Handlers.

(** ** What is rendered *)

Definition filteredFiles (st : State) : list FileItem.t :=
  List.filter
    (fun f =>
       (if Js.truthy_opt (currentFolderId (view st))
        then bool_decide (FileItem.folderId f = currentFolderId (view st))
        else negb (Js.truthy_opt (FileItem.folderId f)))
       && Js.includes (Js.toLowerCase (FileItem.name f))
                      (Js.toLowerCase (searchQuery (view st))))
    (d_files (data st)).

Definition filteredFolders (st : State) : list FolderItem.t :=
  List.filter
    (fun f =>
       negb (Js.truthy_opt (currentFolderId (view st)))
       && Js.includes (Js.toLowerCase (FolderItem.name f))
                      (Js.toLowerCase (searchQuery (view st))))
    (d_folders (data st)).

(** The items each tab lists. *)
Inductive Content :=
| Overview (totalAssets secureNotes teamMembers : nat)
| FilesList (shownFolders : list FolderItem.t) (shownFiles : list FileItem.t)
| NotesGrid (shown : list NoteItem.t)
| TeamList (shown : list MemberItem.t).

Definition renderOverview (st : State) : Content :=
  Overview (length (d_files (data st))) (length (d_notes (data st)))
           (length (d_members (data st))).

Definition renderFiles (st : State) : Content :=
  FilesList (filteredFolders st) (filteredFiles st).

(** [notes.map(note => ...)], or the empty-state card when there is no
    note. *)
Definition renderNotes (st : State) : Content :=
  NotesGrid (d_notes (data st)).

Definition renderTeam (st : State) : Content :=
  TeamList (d_members (data st)).

(** The search bar is rendered on the files and notes tabs. *)
Definition searchBarShown (st : State) : bool :=
  match activeTab (view st) with
  | files_tab | notes_tab => true
  | _ => false
  end.

Definition content (st : State) : Content :=
  match activeTab (view st) with
  | overview => renderOverview st
  | files_tab => renderFiles st
  | notes_tab => renderNotes st
  | team => renderTeam st
  end.

(** The page: the loading screen until the members listener has fired. *)
Definition render (st : State) : option Content :=
  if isLoading (view st) then None else Some (content st).

(** The form's submit button:
    [disabled={isSubmitting || (modalOpen.type === 'file' && !selectedFile)}]. *)
Definition submitDisabled (st : State) : bool :=
  isSubmitting (view st)
  || match modalOpen (modals st), selectedFile (form st) with
     | Some file, None => true
     | _, _ => false
     end.

(** The kind shown under a file's name:
    [file.type.split('/')[1]?.toUpperCase() || 'FILE']. *)
Definition fileTypeLabel (f : FileItem.t) : string :=
  match Js.split "/" (FileItem.type f) !! 1%nat with
  | Some subtype => Js.or_else (Js.toUpperCase subtype) "FILE"
  | None => "FILE"
  end.

(** *** What the user can click *)

(** The three ways to move about the files: a tab of the navigation bar
    ([setActiveTab(tab); setCurrentFolderId(null)]), the Root button
    ([setCurrentFolderId(null)]) and a folder row
    ([setCurrentFolderId(folder.id)]). *)
Definition clickTab (tab : TabView) (st : State) : State :=
  setCurrentFolderId None (setActiveTab tab st).

Definition clickRoot (st : State) : State := setCurrentFolderId None st.

Definition clickFolder (f : FolderItem.t) (st : State) : State :=
  setCurrentFolderId (Some (FolderItem.id f)) st.

(** The bin beside a file row opens the confirmation for that file. *)
Definition clickDeleteFile (f : FileItem.t) (st : State) : State :=
  setDeleteConfirmation
    (Some (DeleteConfirmation.mk (FileItem.id f) files (FileItem.name f)
                                 (Some (FileItem.storagePath f))))
    st.

End Dashboard.

(* ===================================================================== *)
(** * [src/pages/Dashboard.tsx]: the dashboard on local mock data *)
(* ===================================================================== *)

Module MockDashboard.
Import Sdk.

Module FileItem.
Record t := mk {
  id : string;
  name : string;
  size : Z;
  type : string;
  mimeType : string;
  folderId : option string;
  downloadURL : string;
  createdAt : Z                (* [{ seconds }] *)
}.
End FileItem.

Module FolderItem.
Record t := mk {
  id : string;
  name : string;
  parentId : option string;
  createdAt : Z
}.
End FolderItem.

Inductive ModalType := folder | file.

(** The [useState] cells the handler reads or writes.  There is no
    store and no listener: [folders] and [files] are the data. *)
Record State := mkState {
  folders : list FolderItem.t;
  files : list FileItem.t;
  currentFolder : option FolderItem.t;
  modalOpen : option ModalType;
  isSubmitting : bool;
  newItemName : string;
  selectedFile : option File
}.

(** [currentFolder?.id || null] *)
Definition currentFolder_id (st : State) : option string :=
  match currentFolder st with
  | Some f => if Js.truthy (FolderItem.id f) then Some (FolderItem.id f) else None
  | None => None
  end.

(** [handleCreate], given the two readings of [Date.now()]
    (milliseconds) it takes after the simulated delay. *)
Definition handleCreate (now_id now_ts : Z) (st : State) : State :=
  (* setIsSubmitting(true); await new Promise(r => setTimeout(r, 800)) *)
  let id := pretty now_id in
  let timestamp := (now_ts / 1000)%Z in
  let '(folders', files') :=
    match modalOpen st, selectedFile st with
    | Some folder, _ =>
        let newFolder :=
          FolderItem.mk id (Js.or_else (newItemName st) "Untitled Folder")
                        (currentFolder_id st) timestamp in
        (newFolder :: folders st, files st)
    | Some file, Some selected =>
        let newFile :=
          FileItem.mk id (Js.or_else (newItemName st) (file_name selected))
                      (file_size selected)
                      (if Js.startsWith (file_type selected) "image/"
                       then "image" else "doc")
                      (file_type selected) (currentFolder_id st) "#" timestamp in
        (folders st, newFile :: files st)
    | _, _ => (folders st, files st)
    end in
  (* setModalOpen({ type: null }); setIsSubmitting(false); setNewItemName('') *)
  mkState folders' files' (currentFolder st) None false "" (selectedFile st).

(** [getInitials(name)], with [user] from [useAuth()]:
    [(name || user?.email || 'U').substring(0, 2).toUpperCase()]. *)
Definition getInitials (user : option User) (name : option string) : string :=
  let n :=
    if Js.truthy_opt name then default "" name
    else match user with
         | Some u => Js.or_else (user_email u) "U"
         | None => "U"
         end in
  Js.toUpperCase (Js.substring n 0 2).

(** The two lists [renderFiles] shows: the files and the folders of the
    current folder, or of the root when none is open. *)
Definition displayFiles (st : State) : list FileItem.t :=
  List.filter
    (fun f =>
       match currentFolder st with
       | Some c => bool_decide (FileItem.folderId f = Some (FolderItem.id c))
       | None => negb (Js.truthy_opt (FileItem.folderId f))
       end)
    (files st).

Definition displayFolders (st : State) : list FolderItem.t :=
  List.filter
    (fun f =>
       match currentFolder st with
       | Some c => bool_decide (FolderItem.parentId f = Some (FolderItem.id c))
       | None => negb (Js.truthy_opt (FolderItem.parentId f))
       end)
    (folders st).

(** The buttons that open a form, the form's Cancel button and backdrop
    ([setModalOpen({ type: null })], nothing else), and its one input,
    which is a file picker in the file form and the name field
    otherwise. *)
Definition openModal (type : ModalType) (st : State) : State :=
  mkState (folders st) (files st) (currentFolder st) (Some type) (isSubmitting st)
          (newItemName st) (selectedFile st).

Definition cancel (st : State) : State :=
  mkState (folders st) (files st) (currentFolder st) None (isSubmitting st)
          (newItemName st) (selectedFile st).

Definition typeName (value : string) (st : State) : State :=
  mkState (folders st) (files st) (currentFolder st) (modalOpen st) (isSubmitting st)
          value (selectedFile st).

Definition pickFile (picked : option File) (st : State) : State :=
  mkState (folders st) (files st) (currentFolder st) (modalOpen st) (isSubmitting st)
          (newItemName st) picked.

(** A folder row: [onClick={() => setCurrentFolder(folder)}]. *)
Definition clickFolder (f : FolderItem.t) (st : State) : State :=
  mkState (folders st) (files st) (Some f) (modalOpen st) (isSubmitting st)
          (newItemName st) (selectedFile st).

End MockDashboard.

(* ===================================================================== *)
(** * Statements shared by the properties below *)
(* ===================================================================== *)

Module Spec.
Import Sdk Handler.

(** Events that call back into the page (closing the modal, changing
    the route), as opposed to SDK calls and console output. *)
Definition page_callback (e : Event) : bool :=
  match e with
  | OnClose | OnNavigate _ | SetLocationHash _ => true
  | _ => false
  end.

(** The path of one of a user's collections, [users/<uid>/<name>]. *)
Definition user_collection (u : User) (name : string) : string :=
  "users/" +:+ uid u +:+ "/" +:+ name.

(** The creation time a document carries (0 when it carries none). *)
Definition createdAt (d : Doc) : Z :=
  default 0%Z (Dashboard.time_field "createdAt" (doc_data d)).

(** No document of the list comes before a more recent one. *)
Definition newest_first (l : list Doc) : Prop :=
  forall (i j : nat) (d1 d2 : Doc),
    (i < j)%nat -> l !! i = Some d1 -> l !! j = Some d2 ->
    (createdAt d2 <= createdAt d1)%Z.

(** The run from [w] to [w'] appended to the collection exactly one
    document, with a generated id and these fields. *)
Definition stored (b : Backend) (w w' : World) (coll : string)
    (fields : list (string * Value)) : Prop :=
  docsAt coll w'
  = docsAt coll w ++ [mkDoc (autoId b (nonce w)) (list_to_map fields)].

(** A computation of the dashboard that leaves a part of the component
    state alone, however it ends. *)
Definition keeps {X A} (part : Dashboard.State -> X) (m : M Dashboard.State A)
  : Prop :=
  forall s, part (ui (snd (m s))) = part (ui s).

(** The fields a document of each collection holds as strings when the
    dashboard has written it. *)
Definition string_fields (c : Dashboard.Collection) : list string :=
  match c with
  | Dashboard.folders => ["name"]
  | Dashboard.files => ["name"; "type"; "storagePath"; "downloadURL"]
  | Dashboard.notes => ["title"; "content"]
  | Dashboard.teamMembers => ["name"; "role"]
  end.

Definition is_string (v : option Value) : bool :=
  match v with
  | Some (VStr _) => true
  | _ => false
  end.

(** A document shaped as [handleCreate] writes it: no field [id] of
    its own, each string field of its collection present as a string,
    and for a file a numeric [size] and a [folderId] that is a string
    or null. *)
Definition well_formed_doc (c : Dashboard.Collection) (d : Doc) : bool :=
  match doc_data d !! "id" with
  | None => true
  | Some _ => false
  end
  && forallb (fun k => is_string (doc_data d !! k)) (string_fields c)
  && match c with
     | Dashboard.files =>
         match doc_data d !! "size", doc_data d !! "folderId" with
         | Some (VNum _), Some (VStr _ | VNull) => true
         | _, _ => false
         end
     | _ => true
     end.

(** Every document of the user's four collections is well formed. *)
Definition well_formed (u : User) (w : World) : bool :=
  forallb
    (fun c =>
       forallb (well_formed_doc c)
               (docsAt (user_collection u (Dashboard.collection_name c)) w))
    [Dashboard.folders; Dashboard.files; Dashboard.notes; Dashboard.teamMembers].

(** A computation that leaves a part of the system (component state,
    backend or log) alone, however it ends. *)
Definition preserves {S X A} (part : Sys S -> X) (m : M S A) : Prop :=
  forall s, part (snd (m s)) = part s.

(** The session: who is signed in, the mails sent, the route, and the
    callbacks made into the page. *)
Definition session {S} (s : Sys S)
  : option User * list Mail * string * list Event :=
  (currentUser (world s), outbox (world s), location_hash (world s),
   List.filter page_callback (log s)).

Section AuthModal.
Import AuthModal.
Variable b : Backend.

(** The run that ended in [s] closed no modal and set no route. *)
Definition never_navigates (w : World) (s : Sys State) : Prop :=
  (OnClose ∉ log s)
  /\ (forall h, SetLocationHash h ∉ log s)
  /\ location_hash (world s) = location_hash w.

(** What a sign-in handler does once the authentication call [auth]
    has resolved to a user whose email is not verified; [st] and [w]
    are the states before the run and [s] the system after it. *)
Definition bounced (auth : SdkCall) (st : State) (w : World) (s : Sys State)
  : Prop :=
  let u := credential b auth in
  let send := SendEmailVerification u in
  never_navigates w s
  /\ (exists r rest, log s = Call auth None :: Call send r :: rest)
  /\ (fault b send = None ->
      (VerificationMail u ∈ outbox (world s))
      /\ exists r rest,
           log s = Call auth None :: Call send None :: Call SignOut r :: rest)
  /\ (fault b send = None -> fault b SignOut = None ->
      log s = [Call auth None; Call send None; Call SignOut None]
      /\ currentUser (world s) = None
      /\ mode (ui s) = verification_sent)
  /\ (mode (ui s) = verification_sent -> mode st <> verification_sent ->
      fault b send = None /\ fault b SignOut = None).

(** The two ways of signing in. *)
Inductive SignInAttempt := email_password | federated.

Variable getFirebaseErrorMessage : string -> string.

Definition sign_in_handler (a : SignInAttempt) : M State unit :=
  match a with
  | email_password => handleSignIn b getFirebaseErrorMessage
  | federated => handleGoogleSignIn b getFirebaseErrorMessage
  end.

(** The authentication call the attempt makes. *)
Definition auth_call (a : SignInAttempt) (st : State) : SdkCall :=
  match a with
  | email_password => SignInWithEmailAndPassword (email st) (password st)
  | federated => SignInWithPopup
  end.

(** The attempt gets as far as the authentication call: the
    email/password form has both fields filled in. *)
Definition reaches_backend (a : SignInAttempt) (st : State) : Prop :=
  match a with
  | email_password => email st <> "" /\ password st <> ""
  | federated => True
  end.

(** The four actions of the modal that run a handler. *)
Inductive Submission :=
  submit_sign_up | submit_sign_in | click_google | submit_password_reset.

Definition submission_handler (a : Submission) : M State unit :=
  match a with
  | submit_sign_up => handleSignUp b getFirebaseErrorMessage
  | submit_sign_in => handleSignIn b getFirebaseErrorMessage
  | click_google => handleGoogleSignIn b getFirebaseErrorMessage
  | submit_password_reset => handlePasswordReset b getFirebaseErrorMessage
  end.
End AuthModal.

End Spec.

(* ===================================================================== *)
(** * Concrete scenarios *)
(* ===================================================================== *)

Module Scenario.
Import Sdk Handler.

Definition alice : User := mkUser "u1" "alice@example.com" false.

(** A backend on which every call succeeds; authentication resolves to
    the given user. *)
Definition reliable_for (u : User) : Backend :=
  mkBackend (fun _ => None) (fun _ => u)
            (fun _ => [(512, 1024); (1024, 1024)]%Z)
            (fun n => "doc" +:+ pretty n)
            (fun path => "https://storage.example/" +:+ path).

Definition reliable : Backend := reliable_for alice.

(** A backend that refuses to send verification mails. *)
Definition throttled : Backend :=
  mkBackend (fun c => match c with
                      | SendEmailVerification _ => Some "auth/too-many-requests"
                      | _ => None
                      end)
            (credential reliable) (progress reliable) (autoId reliable)
            (urlOf reliable).

Definition getFirebaseErrorMessage (code : string) : string :=
  "Error: " +:+ code.

Definition empty_world : World := mkWorld None [] ∅ ∅ 1700000000 0 "".

Definition sign_in_form : AuthModal.State :=
  AuthModal.mkState AuthModal.signin AuthModal.default_mode
                    "alice@example.com" "correct horse" false false None.

(** The same form with nothing typed. *)
Definition blank_form : AuthModal.State :=
  AuthModal.mkState AuthModal.signin AuthModal.default_mode
                    "" "" false false None.

(** A backend on which every call is rejected with the given code. *)
Definition failing_with (code : string) : Backend :=
  mkBackend (fun _ => Some code)
            (credential reliable) (progress reliable) (autoId reliable)
            (urlOf reliable).

(** *** The vault of a verified user *)

Definition bob : User := mkUser "u2" "bob@example.com" true.

(** A document store that accepts deletions and rejects writes. *)
Definition read_only : Backend :=
  mkBackend (fun c => match c with
                      | AddDoc _ _ => Some "permission-denied"
                      | _ => None
                      end)
            (credential reliable) (progress reliable) (autoId reliable)
            (urlOf reliable).

Definition report : File := mkFile "report.pdf" 2048 "application/pdf".

Definition report_path : string := "user_uploads/u2/doc0-report.pdf".

Definition stored_file (id name : string) (seconds : Z) : Dashboard.FileItem.t :=
  Dashboard.FileItem.mk id name 2048 "application/pdf" None
    ("user_uploads/u2/" +:+ id +:+ "-" +:+ name)
    ("https://storage.example/user_uploads/u2/" +:+ id +:+ "-" +:+ name)
    (Some seconds).

Definition five_files : list Dashboard.FileItem.t :=
  [ stored_file "doc4" "e.pdf" 1700000004;
    stored_file "doc3" "d.pdf" 1700000003;
    stored_file "doc2" "c.pdf" 1700000002;
    stored_file "doc1" "b.pdf" 1700000001;
    stored_file "doc0" "report.pdf" 1700000000 ].

Definition idle_view (tab : Dashboard.TabView) (searchQuery : string)
  : Dashboard.Ui :=
  Dashboard.mkUi tab None false false 0 searchQuery false.

(** Four files in the vault, the file form open with a file chosen. *)
Definition roomy_vault : Dashboard.State :=
  Dashboard.mkState (Some bob)
    (Dashboard.mkData [] (tail five_files) [] [])
    (idle_view Dashboard.files_tab "")
    (Dashboard.mkModals (Some Dashboard.file) None)
    (Dashboard.mkForm (Some report) Dashboard.FormData.initial).

(** Five files in the vault, the file form open with a file chosen. *)
Definition full_vault : Dashboard.State :=
  Dashboard.mkState (Some bob)
    (Dashboard.mkData [] five_files [] [])
    (idle_view Dashboard.files_tab "")
    (Dashboard.mkModals (Some Dashboard.file) None)
    (Dashboard.mkForm (Some report) Dashboard.FormData.initial).

(** A form of the given kind, filled in with the given data. *)
Definition form_open (type : Dashboard.ModalType) (fd : Dashboard.FormData.t)
  : Dashboard.State :=
  Dashboard.mkState (Some bob)
    (Dashboard.mkData [] [] [] [])
    (idle_view Dashboard.files_tab "")
    (Dashboard.mkModals (Some type) None)
    (Dashboard.mkForm None fd).

(** The store holds one folder and one file in it; the file's blob is
    in storage. *)
Definition report_doc : Doc :=
  mkDoc "doc0"
    (list_to_map
       [ ("name", VStr "report.pdf"); ("size", VNum 2048);
         ("type", VStr "application/pdf"); ("storagePath", VStr report_path);
         ("downloadURL", VStr ("https://storage.example/" +:+ report_path));
         ("folderId", VStr "dir0"); ("createdAt", VTime 1700000000) ]).

Definition folder_doc : Doc :=
  mkDoc "dir0"
    (list_to_map [ ("name", VStr "Reports"); ("createdAt", VTime 1699999999) ]).

Definition stocked_world : World :=
  mkWorld (Some bob) []
    {[ "users/u2/files" := [report_doc]; "users/u2/folders" := [folder_doc] ]}
    {[ report_path := report ]}
    1700000100 1 "#/dashboard".

(** The delete confirmation for an item is open. *)
Definition confirming (dc : Dashboard.DeleteConfirmation.t) : Dashboard.State :=
  Dashboard.mkState (Some bob)
    (Dashboard.mkData [] [] [] [])
    (idle_view Dashboard.files_tab "")
    (Dashboard.mkModals None (Some dc))
    (Dashboard.mkForm None Dashboard.FormData.initial).

Definition delete_report : Dashboard.DeleteConfirmation.t :=
  Dashboard.DeleteConfirmation.mk "doc0" Dashboard.files "report.pdf"
                                  (Some report_path).

Definition delete_folder : Dashboard.DeleteConfirmation.t :=
  Dashboard.DeleteConfirmation.mk "dir0" Dashboard.folders "Reports" None.

(** The folder of the store as the dashboard lists it. *)
Definition reports_folder : Dashboard.FolderItem.t :=
  Dashboard.FolderItem.mk "dir0" "Reports" (Some 1699999999%Z).

(** The file of the store as the dashboard lists it, in that folder. *)
Definition filed_report : Dashboard.FileItem.t :=
  Dashboard.FileItem.mk "doc0" "report.pdf" 2048 "application/pdf" (Some "dir0")
    report_path ("https://storage.example/" +:+ report_path)
    (Some 1700000000%Z).

(** The files tab of a vault with that folder, that file in it, and two
    files at the root. *)
Definition stocked_vault : Dashboard.State :=
  Dashboard.mkState (Some bob)
    (Dashboard.mkData [reports_folder]
       [ stored_file "doc2" "Report-2.PDF" 1700000002;
         stored_file "doc1" "b.pdf" 1700000001;
         filed_report ] [] [])
    (idle_view Dashboard.files_tab "")
    (Dashboard.mkModals None None)
    (Dashboard.mkForm None Dashboard.FormData.initial).

(** A dashboard that has just been mounted: nothing received yet, the
    loading screen shown. *)
Definition loading_vault : Dashboard.State :=
  Dashboard.mkState (Some bob)
    (Dashboard.mkData [] [] [] [])
    (Dashboard.mkUi Dashboard.overview None true false 0 "" false)
    (Dashboard.mkModals None None)
    (Dashboard.mkForm None Dashboard.FormData.initial).

(** A store with two folders created at different times. *)
Definition archive_doc : Doc :=
  mkDoc "dir1"
    (list_to_map [ ("name", VStr "Archive"); ("createdAt", VTime 1700000050) ]).

Definition archive_folder : Dashboard.FolderItem.t :=
  Dashboard.FolderItem.mk "dir1" "Archive" (Some 1700000050%Z).

Definition shelved_world : World :=
  mkWorld (Some bob) []
    {[ "users/u2/folders" := [folder_doc; archive_doc] ]}
    ∅ 1700000100 2 "#/dashboard".

(** A backend whose blob store refuses deletions, and one whose
    document store does. *)
Definition storage_down : Backend :=
  mkBackend (fun c => match c with
                      | DeleteObject _ => Some "storage/unauthorized"
                      | _ => None
                      end)
            (credential reliable) (progress reliable) (autoId reliable)
            (urlOf reliable).

Definition store_down : Backend :=
  mkBackend (fun c => match c with
                      | DeleteDoc _ _ => Some "unavailable"
                      | _ => None
                      end)
            (credential reliable) (progress reliable) (autoId reliable)
            (urlOf reliable).

(** The notes tab with one note and a query that its title does not
    contain. *)
Definition budget : Dashboard.NoteItem.t :=
  Dashboard.NoteItem.mk "n1" "Budget" "Q3 figures" (Some 1700000000%Z).

Definition searching_notes : Dashboard.State :=
  Dashboard.mkState (Some bob)
    (Dashboard.mkData [] [] [budget] [])
    (idle_view Dashboard.notes_tab "zzz")
    (Dashboard.mkModals None None)
    (Dashboard.mkForm None Dashboard.FormData.initial).

(** The mock dashboard with the folder form open and no name typed. *)
Definition mock_folder_form : MockDashboard.State :=
  MockDashboard.mkState [] [] None (Some MockDashboard.folder) false "" None.

(** The mock dashboard with no form open. *)
Definition mock_idle : MockDashboard.State :=
  MockDashboard.mkState [] [] None None false "" None.

End Scenario.

(* ===================================================================== *)
(** * Facts about the string operations *)
(* ===================================================================== *)

Module JsFacts.
Import Js.

Lemma truthy_true (s : string) : truthy s = true <-> s <> "".
Proof.
  unfold truthy. destruct (String.eqb_spec s ""); simpl; split; congruence.
Qed.

Lemma truthy_false (s : string) : truthy s = false <-> s = "".
Proof.
  unfold truthy. destruct (String.eqb_spec s ""); simpl; split; congruence.
Qed.

Lemma or_else_empty (d : string) : or_else "" d = d.
Proof. reflexivity. Qed.

Lemma or_else_nonempty (s d : string) : s <> "" -> or_else s d = s.
Proof.
  intros Hs. unfold or_else. apply truthy_true in Hs. now rewrite Hs.
Qed.

Lemma append_String (c : ascii) (s t : string) :
  String c s +:+ t = String c (s +:+ t).
Proof. reflexivity. Qed.

Lemma append_empty (t : string) : "" +:+ t = t.
Proof. reflexivity. Qed.

(** [String.prefix q s] holds exactly when [s] starts with [q]. *)
Lemma prefix_iff (q s : string) :
  String.prefix q s = true <-> exists t, s = q +:+ t.
Proof.
  revert s. induction q as [|a q IH]; intros s.
  - split; [intros _; exists s; reflexivity | intros _; now destruct s].
  - destruct s as [|c s]; simpl.
    + split; [discriminate | intros [t Ht]; discriminate].
    + destruct (ascii_dec a c) as [->|Hne].
      * rewrite IH. split; intros [t Ht]; exists t;
          rewrite append_String in *; congruence.
      * split; [discriminate |].
        intros [t Ht]. rewrite append_String in Ht. congruence.
Qed.

(** [includes s q] holds exactly when [q] is a substring of [s]. *)
Lemma includes_iff (s q : string) :
  includes s q = true <-> exists a c, s = a +:+ q +:+ c.
Proof.
  induction s as [|x s IH].
  - cbn [includes]. rewrite orb_false_r, prefix_iff. split.
    + intros [t Ht]. exists "", t. exact Ht.
    + intros [a [c H]]. destruct a as [|y a].
      * rewrite append_empty in H. eauto.
      * rewrite append_String in H. discriminate.
  - cbn [includes]. rewrite orb_true_iff, prefix_iff, IH. split.
    + intros [[t Ht] | [a [c H]]].
      * exists "", t. exact Ht.
      * exists (String x a), c. rewrite append_String. now rewrite H.
    + intros [a [c H]]. destruct a as [|y a].
      * left. rewrite append_empty in H. eauto.
      * right. rewrite append_String in H. exists a, c. congruence.
Qed.

Lemma includes_empty_query (s : string) : includes s "" = true.
Proof. apply includes_iff. exists "", s. reflexivity. Qed.

Lemma lower_ascii_idem (c : ascii) : lower_ascii (lower_ascii c) = lower_ascii c.
Proof.
  destruct c as [[] [] [] [] [] [] [] []]; reflexivity.
Qed.

Lemma toLowerCase_idem (s : string) : toLowerCase (toLowerCase s) = toLowerCase s.
Proof.
  induction s as [|c s IH]; simpl; [reflexivity|].
  now rewrite lower_ascii_idem, IH.
Qed.

Lemma toLowerCase_append (s t : string) :
  toLowerCase (s +:+ t) = toLowerCase s +:+ toLowerCase t.
Proof.
  induction s as [|c s IH]; [reflexivity|].
  rewrite append_String. simpl. now rewrite IH.
Qed.

(** The match ignores the case of the name and of the query. *)
Lemma matchesQuery_case_insensitive (name name' q q' : string) :
  toLowerCase name = toLowerCase name' ->
  toLowerCase q = toLowerCase q' ->
  matchesQuery name q = matchesQuery name' q'.
Proof. unfold matchesQuery. now intros -> ->. Qed.

Lemma matchesQuery_iff (name q : string) :
  matchesQuery name q = true <->
  exists a c, toLowerCase name = a +:+ toLowerCase q +:+ c.
Proof. apply includes_iff. Qed.

Lemma append_assoc (s t v : string) : (s +:+ t) +:+ v = s +:+ t +:+ v.
Proof.
  induction s as [|c s IH]; [reflexivity|].
  rewrite !append_String. now rewrite IH.
Qed.

(** Appending is injective in its second argument. *)
Lemma append_inj_r (p s t : string) : p +:+ s = p +:+ t -> s = t.
Proof.
  induction p as [|c p IH]; [auto|].
  rewrite !append_String. intros H. apply IH. congruence.
Qed.

End JsFacts.

(* ===================================================================== *)
(** * Collection paths *)
(* ===================================================================== *)

(** The two ways the dashboard spells a collection path, through
    [basePath] and through one template literal, give the same string. *)
Lemma basePath_collection (u : Sdk.User) (name : string) :
  ("users/" +:+ Sdk.uid u) +:+ "/" +:+ name = Spec.user_collection u name.
Proof. apply JsFacts.append_assoc. Qed.

Lemma user_collection_inj (u : Sdk.User) (n1 n2 : string) :
  Spec.user_collection u n1 = Spec.user_collection u n2 -> n1 = n2.
Proof.
  unfold Spec.user_collection. intros H.
  do 3 apply JsFacts.append_inj_r in H. exact H.
Qed.

(* ===================================================================== *)
(** * The authentication modal *)
(* ===================================================================== *)

Lemma not_elem_of_backend_log (e : Sdk.Event) (l : list Sdk.Event) :
  Spec.page_callback e = true ->
  forallb (fun x => negb (Spec.page_callback x)) l = true ->
  e ∉ l.
Proof.
  intros He Hl Hin. apply list_elem_of_In in Hin.
  rewrite forallb_forall in Hl. specialize (Hl e Hin).
  rewrite He in Hl. discriminate.
Qed.

Ltac step_auth :=
  cbv [Handler.run Handler.bind Handler.ret Handler.get Handler.modify
       Handler.emit Handler.modify_world Handler.get_world Handler.return_
       Handler.console_error Handler.try_catch_finally Handler.after_finally
       Handler.invoke Handler.createUserWithEmailAndPassword
       Handler.signInWithEmailAndPassword Handler.signInWithPopup
       Handler.sendEmailVerification Handler.signOut
       Handler.sendPasswordResetEmail
       AuthModal.setMode AuthModal.setIsLoading AuthModal.setError
       AuthModal.onClose AuthModal.assign_location_hash
       Handler.ui Handler.world Handler.log fst snd].

Ltac no_navigation :=
  split; [|split];
  [ apply not_elem_of_backend_log; reflexivity
  | intros ?; apply not_elem_of_backend_log; reflexivity
  | reflexivity ].

Ltac clauses :=
  repeat match goal with
         | |- _ /\ _ => split
         | |- _ -> _ => intros ?
         | H : Some _ = None |- _ => discriminate H
         | H : ?x <> ?x |- _ => destruct (H eq_refl)
         | H : ?x = ?v, H' : ?x <> ?v |- _ => destruct (H' H)
         | |- exists _, _ => eexists
         | |- _ ∈ _ ++ _ => apply elem_of_app; right; apply list_elem_of_singleton
         end;
  try reflexivity; try discriminate; try congruence.

Section AuthModalProperties.
Import Sdk Handler AuthModal.
Variable b : Backend.
Variable getFirebaseErrorMessage : string -> string.

(** C7.  A sign-up with a non-empty email and password on which the
    three SDK calls succeed performs exactly: create the account, send
    the verification mail to the new user, sign out; it ends with nobody
    signed in and the modal in the verification-sent state. *)
Theorem handleSignUp_success (st : State) (w : World) :
  email st <> "" -> password st <> "" ->
  let create := CreateUserWithEmailAndPassword (email st) (password st) in
  let u := credential b create in
  fault b create = None ->
  fault b (SendEmailVerification u) = None ->
  fault b SignOut = None ->
  let s := snd (run (handleSignUp b getFirebaseErrorMessage) st w) in
  log s = [Call create None; Call (SendEmailVerification u) None; Call SignOut None]
  /\ outbox (world s) = outbox w ++ [VerificationMail u]
  /\ currentUser (world s) = None
  /\ mode (ui s) = verification_sent
  /\ isLoading (ui s) = false
  /\ error (ui s) = None.
Proof.
  intros He Hp create u Hc Hv Ho s. subst s.
  apply JsFacts.truthy_true in He, Hp.
  unfold handleSignUp. step_auth.
  rewrite He, Hp. cbn [negb orb].
  fold create. rewrite Hc. fold u. rewrite Hv, Ho.
  cbn. repeat split.
Qed.

(** X26. What the code does for every backend once the authentication
    call of a sign-in attempt (email/password or federated) has
    resolved to a user whose email is not verified: the handler never
    closes the modal and never sets the dashboard route; the next thing
    it does is request a fresh verification mail; when that request
    succeeds the mail is sent and the handler goes on to sign the user
    out; when the sign-out succeeds too, nobody is signed in and the
    verification-sent state is shown; and that state is shown by the
    run only after both have succeeded. *)
Theorem unverified_sign_in_bounced
    (a : Spec.SignInAttempt) (st : State) (w : World) :
  Spec.reaches_backend a st ->
  fault b (Spec.auth_call a st) = None ->
  emailVerified (credential b (Spec.auth_call a st)) = false ->
  Spec.bounced b (Spec.auth_call a st) st w
    (snd (run (Spec.sign_in_handler b getFirebaseErrorMessage a) st w)).
Proof.
  destruct a; cbn [Spec.reaches_backend Spec.auth_call Spec.sign_in_handler].
  - intros [He Hp] Ha Hu.
    apply JsFacts.truthy_true in He, Hp.
    set (auth := SignInWithEmailAndPassword (email st) (password st)) in *.
    unfold Spec.bounced, Spec.never_navigates, handleSignIn. step_auth.
    rewrite He, Hp. cbn [negb orb]. fold auth. rewrite Ha, Hu. cbn [negb].
    destruct (fault b (SendEmailVerification (credential b auth))) as [c1|] eqn:Hs;
      [|destruct (fault b SignOut) as [c2|] eqn:Ho]; cbn.
    all: split; [no_navigation | clauses].
  - intros _ Ha Hu.
    unfold Spec.bounced, Spec.never_navigates, handleGoogleSignIn. step_auth.
    rewrite Ha, Hu. cbn [negb].
    destruct (fault b (SendEmailVerification (credential b SignInWithPopup)))
      as [c1|] eqn:Hs;
      [|destruct (fault b SignOut) as [c2|] eqn:Ho]; cbn.
    all: try destruct (String.eqb _ _); cbn.
    all: split; [no_navigation | clauses].
Qed.
End AuthModalProperties.

Lemma handleSignUp_success_witness :
  let st := Scenario.sign_in_form in
  let s := snd (Handler.run
                  (AuthModal.handleSignUp Scenario.reliable
                     Scenario.getFirebaseErrorMessage) st Scenario.empty_world) in
  AuthModal.email st <> "" /\ AuthModal.password st <> ""
  /\ Handler.log s =
       [Sdk.Call (Sdk.CreateUserWithEmailAndPassword "alice@example.com" "correct horse") None;
        Sdk.Call (Sdk.SendEmailVerification Scenario.alice) None;
        Sdk.Call Sdk.SignOut None]
  /\ AuthModal.mode (Handler.ui s) = AuthModal.verification_sent.
Proof.
  pose proof (handleSignUp_success Scenario.reliable Scenario.getFirebaseErrorMessage
                Scenario.sign_in_form Scenario.empty_world) as H.
  cbv zeta in H.
  assert (He : AuthModal.email Scenario.sign_in_form <> "") by discriminate.
  assert (Hp : AuthModal.password Scenario.sign_in_form <> "") by discriminate.
  specialize (H He Hp eq_refl eq_refl eq_refl).
  destruct H as (Hlog & _ & _ & Hmode & _).
  exact (conj He (conj Hp (conj Hlog Hmode))).
Defined.

(** C2, at the input where the code departs from it: the sign-in
    authenticates a user whose email is not verified, and the backend
    rejects the verification mail.  The handler logs the error and
    stops: the sign-out that was to follow is never called, so the
    unverified user stays signed in; no mail goes out, and the
    verification-sent state is not shown. *)
Lemma unverified_sign_in_send_rejected :
  let auth := Sdk.SignInWithEmailAndPassword "alice@example.com" "correct horse" in
  let s := snd (Handler.run
                  (AuthModal.handleSignIn Scenario.throttled
                     Scenario.getFirebaseErrorMessage)
                  Scenario.sign_in_form Scenario.empty_world) in
  Sdk.fault Scenario.throttled auth = None
  /\ Sdk.emailVerified (Sdk.credential Scenario.throttled auth) = false
  /\ Handler.log s =
       [Sdk.Call auth None;
        Sdk.Call (Sdk.SendEmailVerification Scenario.alice)
                 (Some "auth/too-many-requests");
        Sdk.ConsoleError]
  /\ Sdk.outbox (Handler.world s) = []
  /\ Sdk.currentUser (Handler.world s) = Some Scenario.alice
  /\ AuthModal.mode (Handler.ui s) = AuthModal.default_mode.
Proof. vm_compute. repeat split. Qed.

Lemma unverified_sign_in_bounced_witness :
  Spec.bounced Scenario.reliable
    (Sdk.SignInWithEmailAndPassword "alice@example.com" "correct horse")
    Scenario.sign_in_form Scenario.empty_world
    (snd (Handler.run
            (AuthModal.handleSignIn Scenario.reliable
               Scenario.getFirebaseErrorMessage)
            Scenario.sign_in_form Scenario.empty_world)).
Proof.
  apply (unverified_sign_in_bounced Scenario.reliable
           Scenario.getFirebaseErrorMessage Spec.email_password
           Scenario.sign_in_form Scenario.empty_world).
  - split; discriminate.
  - reflexivity.
  - reflexivity.
Defined.

(* ===================================================================== *)
(** * Stepping through a dashboard handler *)
(* ===================================================================== *)

Ltac step_dash :=
  cbv [Handler.run Handler.bind Handler.ret Handler.get Handler.modify
       Handler.emit Handler.modify_world Handler.get_world Handler.return_
       Handler.console_error Handler.try_catch_finally Handler.after_finally
       Handler.invoke Handler.addDoc Handler.deleteObject Handler.deleteDoc
       Handler.getDownloadURL Handler.newDocId Handler.unsettled_on_throw
       Handler.signOut Dashboard.collection
       Handler.ui Handler.world Handler.log fst snd].

(** Rewrites every collection path to [Spec.user_collection]. *)
Ltac user_paths u :=
  cbn [Dashboard.collection_name];
  change (("users/" +:+ Sdk.uid u) +:+ "/folders")
    with (("users/" +:+ Sdk.uid u) +:+ "/" +:+ "folders");
  change (("users/" +:+ Sdk.uid u) +:+ "/files")
    with (("users/" +:+ Sdk.uid u) +:+ "/" +:+ "files");
  change (("users/" +:+ Sdk.uid u) +:+ "/notes")
    with (("users/" +:+ Sdk.uid u) +:+ "/" +:+ "notes");
  change (("users/" +:+ Sdk.uid u) +:+ "/teamMembers")
    with (("users/" +:+ Sdk.uid u) +:+ "/" +:+ "teamMembers");
  rewrite ?basePath_collection;
  repeat match goal with
         | |- context [ "users/" +:+ Sdk.uid u +:+ "/" +:+ ?n ] =>
             change ("users/" +:+ Sdk.uid u +:+ "/" +:+ n)
               with (Spec.user_collection u n)
         end.

(* ===================================================================== *)
(** * The dashboard: listeners and what is displayed *)
(* ===================================================================== *)

Section ListenerProperties.
Import Sdk Handler Dashboard.

#[local] Instance ordered_total q : Total (ordered q).
Proof.
  intros d1 d2. unfold ordered. destruct (q_direction q); lia.
Qed.

#[local] Instance ordered_trans q : Transitive (ordered q).
Proof.
  intros d1 d2 d3. unfold ordered. destruct (q_direction q); lia.
Qed.

Lemma StronglySorted_lookup {A} (R : relation A) (l : list A) :
  StronglySorted R l ->
  forall (i j : nat) (x y : A),
    (i < j)%nat -> l !! i = Some x -> l !! j = Some y -> R x y.
Proof.
  induction 1 as [|a l Hl IH Ha]; intros i j x y Hij Hi Hj.
  - by rewrite lookup_nil in Hi.
  - destruct j as [|j]; [lia|]. cbn in Hj.
    destruct i as [|i]; cbn in Hi.
    + injection Hi as <-. rewrite Forall_forall in Ha.
      apply Ha. by eapply list_elem_of_lookup_2.
    + apply (IH i j); [lia|done..].
Qed.

(** The result of a query is in the order the query asks for. *)
Lemma runQuery_sorted (q : Query) (w : World) :
  StronglySorted (ordered q) (runQuery q w).
Proof. apply StronglySorted_merge_sort; apply _. Qed.

(** It holds the documents of the query's collection that have the
    order field, each as often as the collection does. *)
Lemma runQuery_Permutation (q : Query) (w : World) :
  runQuery q w ≡ₚ List.filter (has_order_field q) (docsAt (q_path q) w).
Proof. apply merge_sort_Permutation. Qed.

Lemma elem_of_runQuery (q : Query) (w : World) (d : Doc) :
  d ∈ runQuery q w <->
  d ∈ docsAt (q_path q) w /\ is_Some (time_field (q_field q) (doc_data d)).
Proof.
  rewrite runQuery_Permutation, !list_elem_of_In, filter_In.
  unfold has_order_field. by rewrite bool_decide_eq_true.
Qed.

Lemma runQuery_newest_first (path : string) (w : World) :
  Spec.newest_first (runQuery (mkQuery path "createdAt" desc) w).
Proof.
  intros i j d1 d2 Hij H1 H2.
  exact (StronglySorted_lookup _ _ (runQuery_sorted _ w) i j d1 d2 Hij H1 H2).
Qed.

(** A query sees the store only through its own collection. *)
Lemma runQuery_ext (q : Query) (w w' : World) :
  docsAt (q_path q) w' = docsAt (q_path q) w -> runQuery q w' = runQuery q w.
Proof. unfold runQuery. by intros ->. Qed.

(** The local collections once every listener has fired. *)
Lemma synchronise_collections (st : State) (u : User) (w : World) :
  user st = Some u ->
  let result name :=
    map snapshot_object
        (runQuery (mkQuery (Spec.user_collection u name) "createdAt" desc) w) in
  d_folders (data (synchronise w st)) = map asFolderItem (result "folders")
  /\ d_files (data (synchronise w st)) = map asFileItem (result "files")
  /\ d_notes (data (synchronise w st)) = map asNoteItem (result "notes")
  /\ d_members (data (synchronise w st)) = map asMemberItem (result "teamMembers").
Proof.
  intros Hu. unfold synchronise, listeners. rewrite Hu.
  cbn [fold_left deliver l_callback l_query onSnapshot].
  unfold query, orderBy, collection. cbn [fst snd].
  user_paths u. cbn. rewrite !map_map. repeat split.
Qed.

(** C6.  For a signed-in user the dashboard registers four listeners,
    on the user's own [folders], [files], [notes] and [teamMembers]
    collections, each ordered on [createdAt] descending.  Whatever the
    store holds, what a listener is sent consists of documents of that
    collection of that user only, holds every such document that has a
    creation time, and lists no document before a more recent one; and
    once the listeners have fired, each local collection is that result,
    in that order. *)
Theorem listeners_scoped_newest_first (st : State) (u : User) (w : World) :
  user st = Some u ->
  map l_query (listeners st)
  = [ mkQuery (Spec.user_collection u "folders") "createdAt" desc;
      mkQuery (Spec.user_collection u "files") "createdAt" desc;
      mkQuery (Spec.user_collection u "notes") "createdAt" desc;
      mkQuery (Spec.user_collection u "teamMembers") "createdAt" desc ]
  /\ (forall l, l ∈ listeners st ->
      let result := runQuery (l_query l) w in
      (forall d, d ∈ result <->
                 d ∈ docsAt (q_path (l_query l)) w
                 /\ is_Some (time_field "createdAt" (doc_data d)))
      /\ result ≡ₚ List.filter (has_order_field (l_query l))
                               (docsAt (q_path (l_query l)) w)
      /\ Spec.newest_first result)
  /\ (let st' := synchronise w st in
      let result name :=
        map snapshot_object
            (runQuery (mkQuery (Spec.user_collection u name) "createdAt" desc) w) in
      d_folders (data st') = map asFolderItem (result "folders")
      /\ d_files (data st') = map asFileItem (result "files")
      /\ d_notes (data st') = map asNoteItem (result "notes")
      /\ d_members (data st') = map asMemberItem (result "teamMembers")).
Proof.
  intros Hu.
  assert (Hq : map l_query (listeners st)
               = [ mkQuery (Spec.user_collection u "folders") "createdAt" desc;
                   mkQuery (Spec.user_collection u "files") "createdAt" desc;
                   mkQuery (Spec.user_collection u "notes") "createdAt" desc;
                   mkQuery (Spec.user_collection u "teamMembers") "createdAt" desc ]).
  { unfold listeners. rewrite Hu. cbn [map l_query onSnapshot].
    unfold query, orderBy, collection. cbn [fst snd].
    user_paths u. reflexivity. }
  split; [exact Hq|]. split.
  - intros l Hl result. subst result.
    assert (Hin : l_query l ∈ map l_query (listeners st))
      by (by apply list_elem_of_fmap_2).
    rewrite Hq in Hin.
    assert (Hshape : exists path, l_query l = mkQuery path "createdAt" desc).
    { repeat (apply elem_of_cons in Hin as [-> | Hin]; [eauto|]).
      by apply elem_of_nil in Hin. }
    destruct Hshape as [path ->]. split; [|split].
    + intros d. apply elem_of_runQuery.
    + apply runQuery_Permutation.
    + apply runQuery_newest_first.
  - by apply synchronise_collections.
Qed.
End ListenerProperties.

(* ===================================================================== *)
(** * The dashboard: creation and deletion *)
(* ===================================================================== *)

Section DashboardProperties.
Import Sdk Handler Dashboard.
Variable b : Backend.

(** ** The document store *)

Lemma docsAt_set_firestore coll fs w :
  docsAt coll (set_firestore fs w) = default [] (fs !! coll).
Proof. reflexivity. Qed.

Lemma docsAt_delete_same coll id w :
  docsAt coll (effect b (DeleteDoc coll id) w)
  = filter (fun d => doc_id d <> id) (docsAt coll w).
Proof.
  cbn [effect]. rewrite docsAt_set_firestore, lookup_alter_eq.
  unfold docsAt. by destruct (firestore w !! coll).
Qed.

Lemma docsAt_delete_other coll coll' id w :
  coll' <> coll ->
  docsAt coll' (effect b (DeleteDoc coll id) w) = docsAt coll' w.
Proof.
  intros Hne. cbn [effect]. rewrite docsAt_set_firestore.
  by rewrite lookup_alter_ne.
Qed.

Lemma docsAt_add_same coll data w :
  docsAt coll (effect b (AddDoc coll data) w)
  = docsAt coll w
      ++ [mkDoc (autoId b (nonce w)) (stored_data (clock w) data)].
Proof.
  cbn [effect]. unfold tick, docsAt at 1. cbn [firestore set_firestore].
  by rewrite lookup_insert_eq.
Qed.

(** ** C1: the file limit *)

(** The submit button lets a file form through only with a file. *)
Lemma submit_enabled_file_selected (st : State) :
  submitDisabled st = false ->
  modalOpen (modals st) = Some file ->
  selectedFile (form st) <> None.
Proof.
  unfold submitDisabled. intros H Hm. rewrite Hm in H.
  destruct (selectedFile (form st)); [discriminate|].
  by rewrite orb_true_r in H.
Qed.

(** C1.  With the file form open and at least [FILE_LIMIT] (five) files
    in the vault, whatever the current folder, submitting makes no SDK
    call at all (no upload, no document write), leaves the backend and
    the four local collections as they were, and, for a signed-in user
    who has chosen a file, opens the upgrade panel. *)
Theorem file_limit_blocks_creation (st : State) (w : World) :
  modalOpen (modals st) = Some file ->
  (FILE_LIMIT <= length (d_files (data st)))%nat ->
  let s := snd (run (handleCreate b) st w) in
  log s = []
  /\ world s = w
  /\ data (ui s) = data st
  /\ (user st <> None -> selectedFile (form st) <> None ->
      isUpgradeModalOpen (view (ui s)) = true).
Proof.
  intros Hm Hlim s. subst s.
  assert (Hreached : hasReachedLimit st = true).
  { unfold hasReachedLimit. by apply Nat.leb_le. }
  unfold handleCreate. step_dash. rewrite Hm.
  destruct (user st) as [u|]; [|clauses].
  destruct (selectedFile (form st)) as [f|]; [rewrite Hreached|]; cbn; clauses.
Qed.

(** ** C3 and C4: deleting a file *)

(** C3.  When the blob-store delete call of a confirmed file deletion
    rejects, the handler makes no other call: the record deletion is
    never requested, the backend is as before, so the file's record is
    still in the store when the handler completes. *)
Theorem blob_failure_keeps_record
    (st : State) (w : World) (u : User) (dc : DeleteConfirmation.t)
    (path code : string) :
  user st = Some u ->
  deleteConfirmation (modals st) = Some dc ->
  DeleteConfirmation.type dc = files ->
  DeleteConfirmation.storagePath dc = Some path ->
  path <> "" ->
  fault b (DeleteObject path) = Some code ->
  let coll := Spec.user_collection u "files" in
  let s := snd (run (confirmDeletion b) st w) in
  log s = [Call (DeleteObject path) (Some code); ConsoleError]
  /\ (forall r, Call (DeleteDoc coll (DeleteConfirmation.id dc)) r ∉ log s)
  /\ world s = w
  /\ (forall d, d ∈ docsAt coll w -> d ∈ docsAt coll (world s))
  /\ deleteConfirmation (modals (ui s)) = Some dc
  /\ isSubmitting (view (ui s)) = false.
Proof.
  intros Hu Hdc Hty Hsp Hpath Hf coll s. subst s.
  apply JsFacts.truthy_true in Hpath.
  unfold confirmDeletion. step_dash.
  rewrite Hu, Hdc, Hty, Hsp, Hpath. step_dash. rewrite Hf. cbn.
  clauses; try assumption.
  intros Hin. inversion Hin as [|? ? ? Hin']; subst.
  inversion Hin' as [|? ? ? Hin'']; subst. inversion Hin''.
Qed.

(** C4.  A confirmed file deletion requests the blob deletion first.
    Once the blob is deleted the record deletion is requested next; when
    that rejects, the handler only logs the error: nothing is rolled
    back, the store is unchanged, so the record remains, and the blob it
    points at is gone. *)
Theorem file_deletion_blob_then_record
    (st : State) (w : World) (u : User) (dc : DeleteConfirmation.t)
    (path : string) :
  user st = Some u ->
  deleteConfirmation (modals st) = Some dc ->
  DeleteConfirmation.type dc = files ->
  DeleteConfirmation.storagePath dc = Some path ->
  path <> "" ->
  let coll := Spec.user_collection u "files" in
  let blob := DeleteObject path in
  let record := DeleteDoc coll (DeleteConfirmation.id dc) in
  let s := snd (run (confirmDeletion b) st w) in
  (exists r rest, log s = Call blob r :: rest)
  /\ (fault b blob = None ->
      (exists r rest, log s = Call blob None :: Call record r :: rest)
      /\ storage (world s) = delete path (storage w))
  /\ (fault b blob = None -> fault b record = None ->
      log s = [Call blob None; Call record None]
      /\ docsAt coll (world s)
         = filter (fun d => doc_id d <> DeleteConfirmation.id dc) (docsAt coll w))
  /\ (forall code, fault b blob = None -> fault b record = Some code ->
      log s = [Call blob None; Call record (Some code); ConsoleError]
      /\ firestore (world s) = firestore w
      /\ (forall d, d ∈ docsAt coll w -> d ∈ docsAt coll (world s))
      /\ storage (world s) !! path = None).
Proof.
  intros Hu Hdc Hty Hsp Hpath coll blob record s. subst s.
  apply JsFacts.truthy_true in Hpath.
  unfold confirmDeletion. step_dash.
  rewrite Hu, Hdc, Hty, Hsp, Hpath. step_dash. fold blob.
  user_paths u. fold coll. fold record.
  destruct (fault b blob) as [c1|] eqn:Hb.
  - clauses.
  - destruct (fault b record) as [c2|] eqn:Hr; cbn -[effect]; clauses.
    + assumption.
    + cbn. apply lookup_delete_eq.
    + etrans; [apply docsAt_delete_same | reflexivity].
Qed.

(** ** C8: who writes the collections *)

(** [Spec.keeps part] is closed under every way the handlers compose
    their steps, so that it is proved of a handler by following its
    text. *)
Section Keeps.
Context {X : Type} (part : State -> X).
Abbreviation keeps := (Spec.keeps part).

Lemma keeps_ret {A} (a : A) : keeps (ret a).
Proof. by intros s. Qed.

Lemma keeps_return {A} : keeps (@return_ State A).
Proof. by intros s. Qed.

Lemma keeps_get : keeps (@get State).
Proof. by intros s. Qed.

Lemma keeps_get_world : keeps (@get_world State).
Proof. by intros s. Qed.

Lemma keeps_emit e : keeps (@emit State e).
Proof. by intros s. Qed.

Lemma keeps_modify_world f : keeps (@modify_world State f).
Proof. by intros s. Qed.

Lemma keeps_modify (f : State -> State) :
  (forall st, part (f st) = part st) -> keeps (modify f).
Proof. intros Hf s. apply Hf. Qed.

Lemma keeps_invoke c : keeps (@invoke b State c).
Proof. intros s. unfold invoke. by destruct (fault b c). Qed.

Lemma keeps_bind {A B} (m : M State A) (k : A -> M State B) :
  keeps m -> (forall a, keeps (k a)) -> keeps (bind m k).
Proof.
  intros Hm Hk s. unfold bind. specialize (Hm s).
  destruct (m s) as [[a| | |] s']; cbn [snd] in *; try assumption.
  by rewrite Hk.
Qed.

Lemma keeps_after_finally {A} (r : Res A) (fin : M State unit) :
  keeps fin -> keeps (after_finally r fin).
Proof.
  intros Hf s. unfold after_finally. specialize (Hf s).
  by destruct (fin s) as [[[]| | |] s'].
Qed.

Lemma keeps_try {A} (body : M State A) handler fin :
  keeps body -> (forall e, keeps (handler e)) -> keeps fin ->
  keeps (try_catch_finally body handler fin).
Proof.
  intros Hb Hh Hf s. unfold try_catch_finally. specialize (Hb s).
  destruct (body s) as [[a|e| |] s1]; cbn [snd] in *.
  - by rewrite keeps_after_finally.
  - specialize (Hh e s1).
    destruct (handler e s1) as [[a|e'| |] s2]; cbn [snd] in *;
      rewrite ?keeps_after_finally by assumption; congruence.
  - by rewrite keeps_after_finally.
  - assumption.
Qed.

Lemma keeps_unsettled {A} (m : M State A) :
  keeps m -> keeps (unsettled_on_throw m).
Proof.
  intros Hm s. unfold unsettled_on_throw. specialize (Hm s).
  by destruct (m s) as [[a|e| |] s'].
Qed.

Lemma keeps_for_each {A} (l : list A) (f : A -> M State unit) :
  (forall x, keeps (f x)) -> keeps (for_each l f).
Proof.
  intros Hf. induction l as [|x l IH]; cbn [for_each].
  - apply keeps_ret.
  - by apply keeps_bind.
Qed.
End Keeps.

Ltac keeps :=
  repeat first
    [ apply keeps_ret | apply keeps_return | apply keeps_get
    | apply keeps_get_world | apply keeps_emit
    | apply keeps_modify_world | apply keeps_invoke
    | apply keeps_modify; reflexivity
    | apply keeps_bind; [|intros ?]
    | apply keeps_try; [|intros ?|]
    | apply keeps_unsettled
    | apply keeps_for_each; intros ?
    | match goal with
      | |- Spec.keeps _ (match ?x with _ => _ end) => destruct x
      end ].

Lemma handleCreate_keeps_data : Spec.keeps data (handleCreate b).
Proof.
  unfold handleCreate, upload, addDoc, getDownloadURL, newDocId, console_error.
  keeps.
Qed.

Lemma confirmDeletion_keeps_data : Spec.keeps data (confirmDeletion b).
Proof.
  unfold confirmDeletion, deleteObject, deleteDoc, console_error.
  keeps.
Qed.

(** Nor does a handler change who is signed in to the page. *)
Lemma confirmDeletion_keeps_user : Spec.keeps user (confirmDeletion b).
Proof.
  unfold confirmDeletion, deleteObject, deleteDoc, console_error.
  keeps.
Qed.

(** C8, as the code has it.  In the backend-synchronised dashboard
    neither [handleCreate] nor [confirmDeletion] writes [folders],
    [files], [notes] or [members], whatever the form, the confirmation
    and the backend's answers: these change only through the listeners'
    callbacks.  The dashboard on local mock data has no listener, and
    its [handleCreate] itself puts the new folder, or the new file, at
    the head of its local array. *)
Theorem collections_written_only_by_listeners (st : State) (w : World) :
  data (ui (snd (run (handleCreate b) st w))) = data st
  /\ data (ui (snd (run (confirmDeletion b) st w))) = data st
  /\ (forall (now_id now_ts : Z) (m : MockDashboard.State),
        let m' := MockDashboard.handleCreate now_id now_ts m in
        (MockDashboard.modalOpen m = Some MockDashboard.folder ->
         exists f, MockDashboard.folders m' = f :: MockDashboard.folders m)
        /\ (MockDashboard.modalOpen m = Some MockDashboard.file ->
            MockDashboard.selectedFile m <> None ->
            exists f, MockDashboard.files m' = f :: MockDashboard.files m)).
Proof.
  split; [apply handleCreate_keeps_data|].
  split; [apply confirmDeletion_keeps_data|].
  intros now_id now_ts m m'. subst m'. unfold MockDashboard.handleCreate.
  split.
  - intros ->. cbn. eauto.
  - intros -> Hsel. destruct (MockDashboard.selectedFile m); [|done]. cbn. eauto.
Qed.

(** ** C10: deleting a folder *)

(** C10.  A confirmed folder deletion makes one SDK call at most, the
    deletion of the folder's own document.  Blob storage, the user's
    files collection and every collection other than the user's folders
    are exactly as before, so a file record that names the deleted
    folder in [folderId] stays as it is; when the call succeeds the
    folders collection loses the documents with that id and nothing
    else; and what the files listener delivers afterwards is what it
    delivered before. *)
Theorem folder_deletion_leaves_files
    (st : State) (w : World) (u : User) (dc : DeleteConfirmation.t) :
  user st = Some u ->
  deleteConfirmation (modals st) = Some dc ->
  DeleteConfirmation.type dc = folders ->
  let own := DeleteDoc (Spec.user_collection u "folders")
                       (DeleteConfirmation.id dc) in
  let s := snd (run (confirmDeletion b) st w) in
  (forall c r, Call c r ∈ log s -> c = own)
  /\ storage (world s) = storage w
  /\ docsAt (Spec.user_collection u "files") (world s)
     = docsAt (Spec.user_collection u "files") w
  /\ (forall coll, coll <> Spec.user_collection u "folders" ->
      docsAt coll (world s) = docsAt coll w)
  /\ (fault b own = None ->
      docsAt (Spec.user_collection u "folders") (world s)
      = filter (fun d => doc_id d <> DeleteConfirmation.id dc)
               (docsAt (Spec.user_collection u "folders") w))
  /\ d_files (data (synchronise (world s) (ui s)))
     = d_files (data (synchronise w st)).
Proof.
  intros Hu Hdc Hty own s.
  pose proof (confirmDeletion_keeps_user (mkSys st w [])) as Hu'.
  change (user (ui s) = user st) in Hu'.
  rewrite Hu in Hu'. revert Hu'. subst s.
  unfold confirmDeletion. step_dash. rewrite Hu, Hdc, Hty. step_dash.
  user_paths u. fold own.
  assert (Hcalls : forall l : list Event,
             (l = [Call own None] \/ exists c, l = [Call own (Some c); ConsoleError]) ->
             forall c r, Call c r ∈ l -> c = own).
  { intros l Hl c r Hin.
    destruct Hl as [-> | [c' ->]];
      repeat (apply elem_of_cons in Hin as [Hin | Hin]; [congruence|]);
      by apply elem_of_nil in Hin. }
  assert (Hother : forall w0,
             docsAt (Spec.user_collection u "files") (effect b own w0)
             = docsAt (Spec.user_collection u "files") w0).
  { intros w0. apply docsAt_delete_other. intros Heq.
    apply user_collection_inj in Heq. discriminate. }
  assert (Hsync : forall (st' : State) (w' : World),
             user st' = Some u ->
             docsAt (Spec.user_collection u "files") w'
             = docsAt (Spec.user_collection u "files") w ->
             d_files (data (synchronise w' st')) = d_files (data (synchronise w st))).
  { intros st' w' Hst' Hw'.
    destruct (synchronise_collections st' u w' Hst') as (_ & -> & _).
    destruct (synchronise_collections st u w Hu) as (_ & -> & _).
    by rewrite (runQuery_ext
                 (mkQuery (Spec.user_collection u "files") "createdAt" desc)
                 w w' Hw'). }
  destruct (fault b own) as [c|] eqn:Hf; cbn -[effect]; intros Hu'.
  - split; [apply Hcalls; eauto|]. clauses. by apply Hsync.
  - split; [apply Hcalls; eauto|]. clauses.
    + by apply docsAt_delete_other.
    + apply docsAt_delete_same.
    + apply Hsync; [exact Hu' | apply Hother].
Qed.
(** ** C9: what a submitted form stores *)

Lemma or_else_decide (s d : string) :
  Js.or_else s d = if decide (s = "") then d else s.
Proof.
  unfold Js.or_else, Js.truthy.
  destruct (String.eqb_spec s ""); by case_decide.
Qed.

(** C9.  When the store accepts the write, submitting the folder form
    appends one folder document whose name is the name entered, or
    'Untitled Folder' when the field is empty; submitting the note form
    appends one note whose title is the title entered, or 'Untitled
    Note' when the field is empty, and whose content is the content
    entered; submitting the member form appends one member with the
    name and role entered.  Each document carries the server's creation
    time and nothing else. *)
Theorem create_stores_form_fields (st : State) (w : World) (u : User) :
  user st = Some u ->
  (forall coll data, fault b (AddDoc coll data) = None) ->
  let fd := formData (form st) in
  let w' := world (snd (run (handleCreate b) st w)) in
  (modalOpen (modals st) = Some folder ->
   Spec.stored b w w' (Spec.user_collection u "folders")
     [ ("name", VStr (if decide (FormData.name fd = "")
                      then "Untitled Folder" else FormData.name fd));
       ("createdAt", VTime (clock w)) ])
  /\ (modalOpen (modals st) = Some note ->
      Spec.stored b w w' (Spec.user_collection u "notes")
        [ ("title", VStr (if decide (FormData.title fd = "")
                          then "Untitled Note" else FormData.title fd));
          ("content", VStr (FormData.content fd));
          ("createdAt", VTime (clock w)) ])
  /\ (modalOpen (modals st) = Some member ->
      Spec.stored b w w' (Spec.user_collection u "teamMembers")
        [ ("name", VStr (FormData.name fd));
          ("role", VStr (FormData.role fd));
          ("createdAt", VTime (clock w)) ]).
Proof.
  intros Hu Hok fd w'. subst w'. unfold Spec.stored.
  repeat split; intros Hm; unfold handleCreate; step_dash;
    rewrite Hu, Hm; step_dash; user_paths u; rewrite Hok; cbn -[effect];
    rewrite docsAt_add_same, <- ?or_else_decide; reflexivity.
Qed.
End DashboardProperties.

(** ** Search *)

Section SearchProperties.
Import Sdk Dashboard.

(** What the files tab lists: the files of the current folder (of the
    root, when no folder is open) whose name contains the query, case
    ignored. *)
Lemma filteredFiles_iff (st : State) (f : FileItem.t) :
  f ∈ filteredFiles st <->
  f ∈ d_files (data st)
  /\ (if Js.truthy_opt (currentFolderId (view st))
      then FileItem.folderId f = currentFolderId (view st)
      else Js.truthy_opt (FileItem.folderId f) = false)
  /\ exists a c,
       Js.toLowerCase (FileItem.name f)
       = a +:+ Js.toLowerCase (searchQuery (view st)) +:+ c.
Proof.
  unfold filteredFiles.
  rewrite !list_elem_of_In, filter_In, andb_true_iff, JsFacts.includes_iff.
  destruct (Js.truthy_opt (currentFolderId (view st))).
  - rewrite bool_decide_eq_true. tauto.
  - rewrite negb_true_iff. tauto.
Qed.

(** What the files tab lists of the folders: at the root, the folders
    whose name contains the query, case ignored; inside a folder, none. *)
Lemma filteredFolders_iff (st : State) (f : FolderItem.t) :
  f ∈ filteredFolders st <->
  f ∈ d_folders (data st)
  /\ Js.truthy_opt (currentFolderId (view st)) = false
  /\ exists a c,
       Js.toLowerCase (FolderItem.name f)
       = a +:+ Js.toLowerCase (searchQuery (view st)) +:+ c.
Proof.
  unfold filteredFolders.
  rewrite !list_elem_of_In, filter_In, andb_true_iff, JsFacts.includes_iff.
  rewrite negb_true_iff. tauto.
Qed.

(** The notes tab lists every note, whatever is typed in its search
    bar. *)
Lemma renderNotes_ignores_query (st : State) (q : string) :
  renderNotes (setSearchQuery q st) = renderNotes st.
Proof. reflexivity. Qed.

(** C5, at the input where the code departs from it: on the notes tab,
    with the search bar shown and the query "zzz" typed, the note titled
    "Budget" is displayed although its title does not contain the query. *)
Theorem notes_tab_ignores_search :
  let st := Scenario.searching_notes in
  activeTab (view st) = notes_tab
  /\ searchBarShown st = true
  /\ searchQuery (view st) = "zzz"
  /\ Js.matchesQuery (NoteItem.title Scenario.budget) (searchQuery (view st)) = false
  /\ render st = Some (NotesGrid [Scenario.budget]).
Proof. repeat split. Qed.
End SearchProperties.

(* ===================================================================== *)
(** * The properties at concrete inputs *)
(* ===================================================================== *)

Lemma file_limit_blocks_creation_witness :
  let st := Scenario.full_vault in
  let s := snd (Handler.run (Dashboard.handleCreate Scenario.reliable) st
                            Scenario.stocked_world) in
  length (Dashboard.d_files (Dashboard.data st)) = 5%nat
  /\ Handler.log s = []
  /\ Handler.world s = Scenario.stocked_world
  /\ Dashboard.isUpgradeModalOpen (Dashboard.view (Handler.ui s)) = true.
Proof.
  destruct (file_limit_blocks_creation Scenario.reliable Scenario.full_vault
              Scenario.stocked_world eq_refl (le_n 5))
    as (Hlog & Hw & _ & Hup).
  refine (conj eq_refl (conj Hlog (conj Hw (Hup _ _)))); discriminate.
Defined.

Lemma blob_failure_keeps_record_witness :
  let s := snd (Handler.run (Dashboard.confirmDeletion Scenario.storage_down)
                            (Scenario.confirming Scenario.delete_report)
                            Scenario.stocked_world) in
  Handler.log s
  = [Sdk.Call (Sdk.DeleteObject Scenario.report_path) (Some "storage/unauthorized");
     Sdk.ConsoleError]
  /\ Handler.world s = Scenario.stocked_world
  /\ Scenario.report_doc ∈ Sdk.docsAt "users/u2/files" (Handler.world s).
Proof.
  destruct (blob_failure_keeps_record Scenario.storage_down
              (Scenario.confirming Scenario.delete_report) Scenario.stocked_world
              Scenario.bob Scenario.delete_report Scenario.report_path
              "storage/unauthorized" eq_refl eq_refl eq_refl eq_refl
              ltac:(discriminate) eq_refl)
    as (Hlog & _ & Hw & Hrec & _).
  refine (conj Hlog (conj Hw (Hrec _ _))).
  apply list_elem_of_singleton. reflexivity.
Defined.

Lemma file_deletion_blob_then_record_witness :
  let s := snd (Handler.run (Dashboard.confirmDeletion Scenario.store_down)
                            (Scenario.confirming Scenario.delete_report)
                            Scenario.stocked_world) in
  Handler.log s
  = [Sdk.Call (Sdk.DeleteObject Scenario.report_path) None;
     Sdk.Call (Sdk.DeleteDoc "users/u2/files" "doc0") (Some "unavailable");
     Sdk.ConsoleError]
  /\ Scenario.report_doc ∈ Sdk.docsAt "users/u2/files" (Handler.world s)
  /\ Sdk.storage (Handler.world s) !! Scenario.report_path = None.
Proof.
  destruct (file_deletion_blob_then_record Scenario.store_down
              (Scenario.confirming Scenario.delete_report) Scenario.stocked_world
              Scenario.bob Scenario.delete_report Scenario.report_path
              eq_refl eq_refl eq_refl eq_refl ltac:(discriminate))
    as (_ & _ & _ & Hfail).
  destruct (Hfail "unavailable" eq_refl eq_refl) as (Hlog & _ & Hrec & Hblob).
  refine (conj Hlog (conj (Hrec _ _) Hblob)).
  apply list_elem_of_singleton. reflexivity.
Defined.

Lemma folder_deletion_leaves_files_witness :
  let s := snd (Handler.run (Dashboard.confirmDeletion Scenario.reliable)
                            (Scenario.confirming Scenario.delete_folder)
                            Scenario.stocked_world) in
  Sdk.docsAt "users/u2/folders" (Handler.world s) = []
  /\ Sdk.docsAt "users/u2/files" (Handler.world s) = [Scenario.report_doc]
  /\ Sdk.storage (Handler.world s) = Sdk.storage Scenario.stocked_world.
Proof.
  destruct (folder_deletion_leaves_files Scenario.reliable
              (Scenario.confirming Scenario.delete_folder) Scenario.stocked_world
              Scenario.bob Scenario.delete_folder eq_refl eq_refl eq_refl)
    as (_ & Hst & Hfiles & _ & Hfolders & _).
  exact (conj (Hfolders eq_refl) (conj Hfiles Hst)).
Defined.

Lemma create_stores_form_fields_witness :
  let w' := Handler.world
              (snd (Handler.run (Dashboard.handleCreate Scenario.reliable)
                      (Scenario.form_open Dashboard.folder
                                          Dashboard.FormData.initial)
                      Scenario.stocked_world)) in
  Spec.stored Scenario.reliable Scenario.stocked_world w' "users/u2/folders"
    [ ("name", Sdk.VStr "Untitled Folder"); ("createdAt", Sdk.VTime 1700000100) ].
Proof.
  destruct (create_stores_form_fields Scenario.reliable
              (Scenario.form_open Dashboard.folder Dashboard.FormData.initial)
              Scenario.stocked_world Scenario.bob eq_refl (fun _ _ => eq_refl))
    as (Hfolder & _).
  exact (Hfolder eq_refl).
Defined.

Lemma listeners_scoped_newest_first_witness :
  map Dashboard.l_query (Dashboard.listeners Scenario.full_vault)
  = [ Dashboard.mkQuery "users/u2/folders" "createdAt" Dashboard.desc;
      Dashboard.mkQuery "users/u2/files" "createdAt" Dashboard.desc;
      Dashboard.mkQuery "users/u2/notes" "createdAt" Dashboard.desc;
      Dashboard.mkQuery "users/u2/teamMembers" "createdAt" Dashboard.desc ].
Proof.
  destruct (listeners_scoped_newest_first Scenario.full_vault Scenario.bob
              Scenario.stocked_world eq_refl) as (Hq & _).
  exact Hq.
Defined.

(** C8 as stated fails on the dashboard of [src/pages/Dashboard.tsx]:
    its [handleCreate] writes the local [folders] array itself. *)
Lemma mock_handleCreate_writes_folders :
  let st := Scenario.mock_folder_form in
  MockDashboard.folders st = []
  /\ MockDashboard.folders
       (MockDashboard.handleCreate 1700000000123 1700000000456 st)
     = [ MockDashboard.FolderItem.mk "1700000000123" "Untitled Folder" None
                                     1700000000 ].
Proof. vm_compute. split; reflexivity. Qed.

(** ** The other side of each guard *)

(** A verified user who signs in does reach the dashboard. *)
Example verified_sign_in_navigates :
  let s := snd (Handler.run
                  (AuthModal.handleSignIn (Scenario.reliable_for Scenario.bob)
                     Scenario.getFirebaseErrorMessage)
                  Scenario.sign_in_form Scenario.empty_world) in
  Handler.log s
  = [ Sdk.Call (Sdk.SignInWithEmailAndPassword "alice@example.com" "correct horse")
               None;
      Sdk.OnClose; Sdk.SetLocationHash "#/dashboard" ]
  /\ Sdk.location_hash (Handler.world s) = "#/dashboard"
  /\ Sdk.currentUser (Handler.world s) = Some Scenario.bob.
Proof. vm_compute. repeat split. Qed.

(** Below the limit the file is uploaded and then recorded. *)
Example below_limit_uploads :
  let path := "user_uploads/u2/doc1-report.pdf" in
  let r := Handler.run (Dashboard.handleCreate Scenario.reliable)
                       Scenario.roomy_vault Scenario.stocked_world in
  fst r = Handler.Ok tt
  /\ (exists data,
        Handler.log (snd r)
        = [ Sdk.Call (Sdk.UploadBytesResumable path Scenario.report) None;
            Sdk.Call (Sdk.GetDownloadURL path) None;
            Sdk.Call (Sdk.AddDoc "users/u2/files" data) None ])
  /\ Sdk.storage (Handler.world (snd r)) !! path = Some Scenario.report
  /\ length (Sdk.docsAt "users/u2/files" (Handler.world (snd r))) = 2%nat
  /\ Dashboard.isUpgradeModalOpen (Dashboard.view (Handler.ui (snd r))) = false
  /\ Dashboard.modalOpen (Dashboard.modals (Handler.ui (snd r))) = None.
Proof. vm_compute. repeat split. eexists. reflexivity. Qed.

(** When the record cannot be written after the upload, the awaited
    promise is never settled: the handler does not finish, and the
    submit button stays disabled. *)
Example upload_without_record_hangs :
  let r := Handler.run (Dashboard.handleCreate Scenario.read_only)
                       Scenario.roomy_vault Scenario.stocked_world in
  fst r = Handler.Pending
  /\ Dashboard.isSubmitting (Dashboard.view (Handler.ui (snd r))) = true
  /\ Dashboard.submitDisabled (Handler.ui (snd r)) = true.
Proof. vm_compute. repeat split. Qed.

(** After its folder is deleted the file is still in the vault and still
    counts towards the limit, but the files tab shows it in no folder. *)
Example orphaned_file_hidden :
  let s := snd (Handler.run (Dashboard.confirmDeletion Scenario.reliable)
                            (Scenario.confirming Scenario.delete_folder)
                            Scenario.stocked_world) in
  let st := Dashboard.synchronise (Handler.world s) (Handler.ui s) in
  Dashboard.d_folders (Dashboard.data st) = []
  /\ map Dashboard.FileItem.name (Dashboard.d_files (Dashboard.data st))
     = ["report.pdf"]
  /\ map Dashboard.FileItem.folderId (Dashboard.d_files (Dashboard.data st))
     = [Some "dir0"]
  /\ Dashboard.filteredFiles st = [].
Proof. vm_compute. repeat split. Qed.

(* ===================================================================== *)
(** * The sign-in modal: every way a handler can end *)
(* ===================================================================== *)

(** Case analysis on everything a stepped handler still branches on. *)
Ltac branches :=
  repeat match goal with
         | |- context [match Sdk.fault ?b ?c with _ => _ end] =>
             destruct (Sdk.fault b c) eqn:?
         | |- context [if Js.truthy ?s then _ else _] => destruct (Js.truthy s) eqn:?
         | |- context [negb (Js.truthy ?s)] => destruct (Js.truthy s) eqn:?
         | |- context [if negb (Sdk.emailVerified ?u) then _ else _] =>
             destruct (Sdk.emailVerified u) eqn:?
         | |- context [if negb (String.eqb ?x ?y) then _ else _] =>
             destruct (String.eqb x y) eqn:?
         | _ => progress cbn [negb orb andb]
         end.

Section AuthModalOutcomes.
Import Sdk Handler AuthModal.
Variable b : Backend.
Variable getFirebaseErrorMessage : string -> string.

(** X1. With the email or the password left empty, the sign-up and the
    sign-in form make no SDK call and change nothing at the backend:
    each shows its own message, is not left loading and stays in the
    mode it was in. *)
Theorem auth_forms_validate_before_calling (st : State) (w : World) :
  email st = "" \/ password st = "" ->
  let up := snd (run (handleSignUp b getFirebaseErrorMessage) st w) in
  let inn := snd (run (handleSignIn b getFirebaseErrorMessage) st w) in
  (log up = [] /\ world up = w
   /\ error (ui up) = Some "Please fill in all required fields."
   /\ isLoading (ui up) = false /\ mode (ui up) = mode st)
  /\ (log inn = [] /\ world inn = w
      /\ error (ui inn) = Some "Please enter both email and password."
      /\ isLoading (ui inn) = false /\ mode (ui inn) = mode st).
Proof.
  intros Hempty up inn. subst up inn.
  assert (Hguard : negb (Js.truthy (email st)) || negb (Js.truthy (password st)) = true).
  { destruct Hempty as [-> | ->]; [reflexivity | apply orb_true_r]. }
  unfold handleSignUp, handleSignIn. step_auth. rewrite Hguard.
  repeat split.
Qed.

(** X2. The three outcomes of the password-reset form.  With no email
    typed it asks for one without calling the backend, and does not
    touch the loading flag.  Otherwise it makes the one call
    [sendPasswordResetEmail(email)]: on success the reset mail is sent
    and the mode becomes 'reset-sent'; on rejection nothing is sent, the
    mode is kept and the translated error is shown.  Either way it is not
    left loading and nobody is signed in or out. *)
Theorem handlePasswordReset_outcomes (st : State) (w : World) :
  let request := SendPasswordResetEmail (email st) in
  let s := snd (run (handlePasswordReset b getFirebaseErrorMessage) st w) in
  (email st = "" ->
   log s = [] /\ world s = w
   /\ error (ui s) = Some "Please enter your email address."
   /\ mode (ui s) = mode st /\ isLoading (ui s) = isLoading st)
  /\ (email st <> "" -> fault b request = None ->
      log s = [Call request None]
      /\ outbox (world s) = outbox w ++ [PasswordResetMail (email st)]
      /\ currentUser (world s) = currentUser w
      /\ mode (ui s) = reset_sent /\ error (ui s) = None
      /\ isLoading (ui s) = false)
  /\ (email st <> "" -> forall code, fault b request = Some code ->
      log s = [Call request (Some code); ConsoleError]
      /\ world s = w
      /\ mode (ui s) = mode st
      /\ error (ui s) = Some (getFirebaseErrorMessage code)
      /\ isLoading (ui s) = false).
Proof.
  intros request s. subst s. unfold handlePasswordReset. step_auth. fold request.
  split; [|split].
  - intros ->. cbn. repeat split.
  - intros He Hok. apply JsFacts.truthy_true in He. rewrite He, Hok. cbn.
    repeat split.
  - intros He code Hko. apply JsFacts.truthy_true in He. rewrite He, Hko. cbn.
    repeat split.
Qed.

(** X3. A sign-in (email/password or federated) that resolves to a user
    with a verified email makes the authentication call and nothing
    else at the backend, closes the modal and then sets the route to
    '#/dashboard'; the user stays signed in, no mail is sent, and the
    modal's mode is not changed. *)
Theorem verified_sign_in_reaches_dashboard
    (a : Spec.SignInAttempt) (st : State) (w : World) :
  Spec.reaches_backend a st ->
  fault b (Spec.auth_call a st) = None ->
  emailVerified (credential b (Spec.auth_call a st)) = true ->
  let s := snd (run (Spec.sign_in_handler b getFirebaseErrorMessage a) st w) in
  log s = [Call (Spec.auth_call a st) None; OnClose; SetLocationHash "#/dashboard"]
  /\ location_hash (world s) = "#/dashboard"
  /\ currentUser (world s) = Some (credential b (Spec.auth_call a st))
  /\ outbox (world s) = outbox w
  /\ mode (ui s) = mode st
  /\ error (ui s) = None
  /\ isLoading (ui s) = false.
Proof.
  destruct a; cbn [Spec.reaches_backend Spec.auth_call Spec.sign_in_handler].
  - intros [He Hp] Ha Hv. cbv zeta. apply JsFacts.truthy_true in He, Hp.
    unfold handleSignIn. step_auth. rewrite He, Hp. cbn [negb orb].
    rewrite Ha, Hv. cbn. repeat split.
  - intros _ Ha Hv. cbv zeta.
    unfold handleGoogleSignIn. step_auth. rewrite Ha, Hv. cbn. repeat split.
Qed.

(** X4. When the authentication call of a sign-in is rejected, the
    handler logs the error and stops: the backend is unchanged, the
    modal stays open in the mode it was in and is not left loading.  The
    email/password form shows the translated error; the federated
    sign-in shows it too, except for the code
    'auth/popup-closed-by-user', for which no error is shown. *)
Theorem sign_in_rejected_stays
    (a : Spec.SignInAttempt) (st : State) (w : World) (code : string) :
  Spec.reaches_backend a st ->
  fault b (Spec.auth_call a st) = Some code ->
  let s := snd (run (Spec.sign_in_handler b getFirebaseErrorMessage a) st w) in
  log s = [Call (Spec.auth_call a st) (Some code); ConsoleError]
  /\ world s = w
  /\ mode (ui s) = mode st
  /\ isLoading (ui s) = false
  /\ error (ui s)
     = match a with
       | Spec.federated =>
           if String.eqb code "auth/popup-closed-by-user" then None
           else Some (getFirebaseErrorMessage code)
       | Spec.email_password => Some (getFirebaseErrorMessage code)
       end.
Proof.
  destruct a; cbn [Spec.reaches_backend Spec.auth_call Spec.sign_in_handler].
  - intros [He Hp] Ha. cbv zeta. apply JsFacts.truthy_true in He, Hp.
    unfold handleSignIn. step_auth. rewrite He, Hp. cbn [negb orb].
    rewrite Ha. cbn. repeat split.
  - intros _ Ha. cbv zeta.
    unfold handleGoogleSignIn. step_auth. rewrite Ha.
    destruct (String.eqb code "auth/popup-closed-by-user"); cbn; repeat split.
Qed.

(** X5. The three ways a filled-in sign-up can fail.  When the account
    creation is rejected nothing changes at the backend.  When the
    account is created but the verification mail is rejected, no mail is
    sent, no sign-out is attempted and the new user stays signed in.
    When the mail is sent but the sign-out is rejected, the new user
    stays signed in.  In each case the mode is kept (the
    'verification-sent' panel is not shown) and the translated error of
    the failing call is shown. *)
Theorem handleSignUp_failures (st : State) (w : World) :
  email st <> "" -> password st <> "" ->
  let create := CreateUserWithEmailAndPassword (email st) (password st) in
  let u := credential b create in
  let s := snd (run (handleSignUp b getFirebaseErrorMessage) st w) in
  (forall code, fault b create = Some code ->
     log s = [Call create (Some code); ConsoleError]
     /\ world s = w
     /\ mode (ui s) = mode st
     /\ error (ui s) = Some (getFirebaseErrorMessage code))
  /\ (forall code, fault b create = None ->
      fault b (SendEmailVerification u) = Some code ->
      log s = [Call create None; Call (SendEmailVerification u) (Some code);
               ConsoleError]
      /\ currentUser (world s) = Some u
      /\ outbox (world s) = outbox w
      /\ mode (ui s) = mode st
      /\ error (ui s) = Some (getFirebaseErrorMessage code))
  /\ (forall code, fault b create = None ->
      fault b (SendEmailVerification u) = None ->
      fault b SignOut = Some code ->
      log s = [Call create None; Call (SendEmailVerification u) None;
               Call SignOut (Some code); ConsoleError]
      /\ currentUser (world s) = Some u
      /\ outbox (world s) = outbox w ++ [VerificationMail u]
      /\ mode (ui s) = mode st
      /\ error (ui s) = Some (getFirebaseErrorMessage code)).
Proof.
  intros He Hp create u s. subst s. apply JsFacts.truthy_true in He, Hp.
  unfold handleSignUp. step_auth. rewrite He, Hp. cbn [negb orb].
  fold create. fold u.
  split; [|split].
  - intros code ->. cbn. repeat split.
  - intros code -> ->. cbn. repeat split.
  - intros code -> -> ->. cbn. repeat split.
Qed.

(** X6. Whatever the backend answers, each of the four handlers of the
    modal (sign-up, sign-in, federated sign-in, password reset) ends
    without an uncaught error, and the modal is not left loading; the
    one exception is the password-reset form submitted without an
    email, which returns before touching the loading flag.  No handler
    changes the document store, the blob store, the typed email and
    password, or the selected tab. *)
Theorem auth_handlers_settle (a : Spec.Submission) (st : State) (w : World) :
  let r := run (Spec.submission_handler b getFirebaseErrorMessage a) st w in
  (fst r = Ok tt \/ fst r = Return)
  /\ (isLoading (ui (snd r)) = false
      \/ (a = Spec.submit_password_reset /\ email st = ""
          /\ isLoading (ui (snd r)) = isLoading st))
  /\ firestore (world (snd r)) = firestore w
  /\ storage (world (snd r)) = storage w
  /\ email (ui (snd r)) = email st
  /\ password (ui (snd r)) = password st
  /\ activeTab (ui (snd r)) = activeTab st.
Proof.
  cbv zeta. destruct a; cbn [Spec.submission_handler].
  - unfold handleSignUp. step_auth. branches; cbn; auto 10.
  - unfold handleSignIn. step_auth. branches; cbn; auto 10.
  - unfold handleGoogleSignIn. step_auth. branches; cbn; auto 10.
  - unfold handlePasswordReset. step_auth.
    destruct (Js.truthy (email st)) eqn:He; cbn [negb].
    + branches; cbn; auto 10.
    + apply JsFacts.truthy_false in He. cbn. repeat split; auto.
Qed.
End AuthModalOutcomes.

(* ===================================================================== *)
(** * The dashboard: every way a mutation can end *)
(* ===================================================================== *)

Section UploadSteps.
Import Sdk Handler Dashboard.

(** The progress callbacks change nothing but the percentage shown. *)
Lemma for_each_progress (g : Z * Z -> Q) (l : list (Z * Z)) (s : Sys State) :
  exists q,
    for_each l (fun snapshot => modify (setUploadProgress (g snapshot))) s
    = (Ok tt, mkSys (setUploadProgress q (ui s)) (world s) (log s)).
Proof.
  revert s. induction l as [|x l IH]; intros s.
  - exists (uploadProgress (view (ui s))).
    by destruct s as [[? ? [] ? ?] ? ?].
  - cbn [for_each]. unfold bind at 1. unfold modify at 1.
    destruct (IH (mkSys (setUploadProgress (g x) (ui s)) (world s) (log s)))
      as [q ->].
    by exists q.
Qed.

Lemma room_in_vault (st : State) :
  (length (d_files (data st)) < FILE_LIMIT)%nat -> hasReachedLimit st = false.
Proof. intros H. unfold hasReachedLimit. by apply Nat.leb_gt. Qed.
End UploadSteps.

(** Steps [Hr : r = run (handleCreate b) st w] through the file branch
    up to the upload call, for a signed-in user with a file selected and
    room in the vault. *)
Ltac upload_run Hr Hu Hm Hsel Hroom q :=
  unfold Dashboard.handleCreate, Dashboard.upload, Handler.run in Hr;
  unfold Handler.bind at 1 in Hr; unfold Handler.get at 1 in Hr;
  cbn [Handler.ui] in Hr;
  rewrite Hu, Hm, Hsel, Hroom in Hr;
  unfold Handler.bind at 1 in Hr; unfold Handler.modify at 1 in Hr;
  cbn [Handler.ui Handler.world Handler.log] in Hr;
  unfold Handler.try_catch_finally in Hr;
  unfold Handler.bind at 1 in Hr; unfold Handler.bind at 1 in Hr;
  unfold Handler.newDocId at 1 in Hr;
  unfold Handler.bind at 1 in Hr; unfold Handler.get_world at 1 in Hr;
  cbn [Handler.world] in Hr;
  unfold Handler.bind at 1 in Hr; unfold Handler.modify_world at 1 in Hr;
  unfold Handler.ret at 1 in Hr;
  cbn [Handler.ui Handler.world Handler.log] in Hr;
  unfold Handler.bind at 1 in Hr;
  match type of Hr with
  | context [Handler.for_each ?l ?k ?s] =>
      let Hq := fresh "Hq" in
      destruct (for_each_progress
                  (fun snapshot =>
                     (inject_Z (fst snapshot) / inject_Z (snd snapshot) * 100)%Q)
                  l s) as [q Hq];
      cbn [Sdk.tick Sdk.nonce] in Hq, Hr; rewrite Hq in Hr; clear Hq
  end.

Section DashboardOutcomes.
Import Sdk Handler Dashboard.
Variable b : Backend.

(** The run of a file upload on which every call succeeds. *)
Lemma handleCreate_upload_ok (st : State) (w : World) (u : User) (f : File) :
  user st = Some u ->
  modalOpen (modals st) = Some file ->
  selectedFile (form st) = Some f ->
  (length (d_files (data st)) < FILE_LIMIT)%nat ->
  let path := "user_uploads/" +:+ uid u +:+ "/" +:+ autoId b (nonce w) +:+ "-"
                +:+ file_name f in
  let coll := Spec.user_collection u "files" in
  let data :=
    [ ("name", Lit (VStr (file_name f)));
      ("size", Lit (VNum (file_size f)));
      ("type", Lit (VStr (file_type f)));
      ("storagePath", Lit (VStr path));
      ("downloadURL", Lit (VStr (urlOf b path)));
      ("folderId", Lit (match currentFolderId (view st) with
                        | Some c => VStr c
                        | None => VNull
                        end));
      ("createdAt", serverTimestamp) ] in
  fault b (UploadBytesResumable path f) = None ->
  fault b (GetDownloadURL path) = None ->
  fault b (AddDoc coll data) = None ->
  exists q,
    run (handleCreate b) st w
    = (Ok tt,
       mkSys
         (setIsSubmitting false
            (setUploadProgress 0
               (setSelectedFile None
                  (setFormData FormData.initial
                     (setModalOpen None
                        (setUploadProgress q (setIsSubmitting true st)))))))
         (effect b (AddDoc coll data)
            (effect b (UploadBytesResumable path f) (tick w)))
         [ Call (UploadBytesResumable path f) None;
           Call (GetDownloadURL path) None;
           Call (AddDoc coll data) None ]).
Proof.
  intros Hu Hm Hsel Hlim path coll data Hup Hurl Hadd.
  pose proof (room_in_vault st Hlim) as Hroom.
  remember (run (handleCreate b) st w) as r eqn:Hr.
  upload_run Hr Hu Hm Hsel Hroom q. fold path in Hr. exists q.
  revert Hr. step_dash. rewrite Hup, Hurl. step_dash. user_paths u. fold coll.
  fold data. rewrite Hadd. intros ->. reflexivity.
Qed.

(** X7. Without a signed-in user, [handleCreate] and [confirmDeletion]
    return at once; so does [handleCreate] with no form open and
    [confirmDeletion] with no confirmation open.  Nothing is called and
    the component state is exactly as before (the submitting flag is not
    even raised). *)
Theorem handlers_need_user_and_target (st : State) (w : World) :
  (user st = None \/ modalOpen (modals st) = None ->
   run (handleCreate b) st w = (Return, mkSys st w []))
  /\ (user st = None \/ deleteConfirmation (modals st) = None ->
      run (confirmDeletion b) st w = (Return, mkSys st w [])).
Proof.
  split; intros H; unfold handleCreate, confirmDeletion; step_dash.
  - destruct H as [-> | ->]; [reflexivity | by destruct (user st)].
  - destruct H as [-> | ->]; [reflexivity | by destruct (user st)].
Qed.

(** X8. A file upload below the limit on which the three calls succeed:
    the calls are, in this order, the upload of the selected file to
    [user_uploads/<uid>/<fresh id>-<file name>], the request of its
    download URL, and the creation of one record in the user's files
    collection.  The blob is stored under that path; the record carries
    the file's name, size and type, that path, the download URL, the
    folder that was open (null at the root) and a creation time; the
    form is closed and reset and the submitting flag is cleared. *)
Theorem file_upload_stores_blob_then_record
    (st : State) (w : World) (u : User) (f : File) :
  user st = Some u ->
  modalOpen (modals st) = Some file ->
  selectedFile (form st) = Some f ->
  (length (d_files (data st)) < FILE_LIMIT)%nat ->
  let path := "user_uploads/" +:+ uid u +:+ "/" +:+ autoId b (nonce w) +:+ "-"
                +:+ file_name f in
  let coll := Spec.user_collection u "files" in
  fault b (UploadBytesResumable path f) = None ->
  fault b (GetDownloadURL path) = None ->
  (forall data, fault b (AddDoc coll data) = None) ->
  let r := run (handleCreate b) st w in
  fst r = Ok tt
  /\ (exists data,
        log (snd r) = [ Call (UploadBytesResumable path f) None;
                        Call (GetDownloadURL path) None;
                        Call (AddDoc coll data) None ])
  /\ storage (world (snd r)) = <[path := f]> (storage w)
  /\ (exists id t,
        docsAt coll (world (snd r))
        = docsAt coll w
          ++ [ mkDoc id
                 (list_to_map
                    [ ("name", VStr (file_name f));
                      ("size", VNum (file_size f));
                      ("type", VStr (file_type f));
                      ("storagePath", VStr path);
                      ("downloadURL", VStr (urlOf b path));
                      ("folderId", match currentFolderId (view st) with
                                   | Some c => VStr c
                                   | None => VNull
                                   end);
                      ("createdAt", VTime t) ]) ])
  /\ modals (ui (snd r)) = mkModals None (deleteConfirmation (modals st))
  /\ form (ui (snd r)) = mkForm None FormData.initial
  /\ isSubmitting (view (ui (snd r))) = false.
Proof.
  intros Hu Hm Hsel Hlim path coll Hup Hurl Hadd r.
  pose proof (room_in_vault st Hlim) as Hroom.
  pose proof (eq_refl : r = run (handleCreate b) st w) as Hr. clearbody r.
  upload_run Hr Hu Hm Hsel Hroom q. fold path in Hr.
  revert Hr. step_dash. rewrite Hup, Hurl. step_dash. user_paths u. fold coll.
  rewrite Hadd. intros ->. cbn -[effect].
  repeat split.
  - eexists. reflexivity.
  - eexists _, _. rewrite docsAt_add_same. reflexivity.
Qed.

(** X9. When the upload itself is rejected, the promise is rejected and
    the error is caught: the handler ends normally having made only the
    upload call and logged the error; no blob and no record are stored,
    the form stays open with its file selected, and the submitting flag
    is cleared. *)
Theorem rejected_upload_changes_nothing
    (st : State) (w : World) (u : User) (f : File) (code : string) :
  user st = Some u ->
  modalOpen (modals st) = Some file ->
  selectedFile (form st) = Some f ->
  (length (d_files (data st)) < FILE_LIMIT)%nat ->
  let path := "user_uploads/" +:+ uid u +:+ "/" +:+ autoId b (nonce w) +:+ "-"
                +:+ file_name f in
  fault b (UploadBytesResumable path f) = Some code ->
  let r := run (handleCreate b) st w in
  fst r = Ok tt
  /\ log (snd r) = [Call (UploadBytesResumable path f) (Some code); ConsoleError]
  /\ storage (world (snd r)) = storage w
  /\ firestore (world (snd r)) = firestore w
  /\ modals (ui (snd r)) = modals st
  /\ form (ui (snd r)) = form st
  /\ isSubmitting (view (ui (snd r))) = false.
Proof.
  intros Hu Hm Hsel Hlim path Hup r.
  pose proof (room_in_vault st Hlim) as Hroom.
  pose proof (eq_refl : r = run (handleCreate b) st w) as Hr. clearbody r.
  upload_run Hr Hu Hm Hsel Hroom q. fold path in Hr.
  revert Hr. step_dash. rewrite Hup. step_dash. intros ->. cbn.
  repeat split.
Qed.

(** X10. When the upload succeeds but the download URL or the record
    cannot be obtained afterwards, the completion callback throws where
    nobody catches it and the awaited promise is never settled: the
    handler does not finish.  The blob is stored with no record of it,
    no error is logged by the handler, the submitting flag stays raised
    and the form stays open. *)
Theorem upload_without_record_never_settles
    (st : State) (w : World) (u : User) (f : File) :
  user st = Some u ->
  modalOpen (modals st) = Some file ->
  selectedFile (form st) = Some f ->
  (length (d_files (data st)) < FILE_LIMIT)%nat ->
  let path := "user_uploads/" +:+ uid u +:+ "/" +:+ autoId b (nonce w) +:+ "-"
                +:+ file_name f in
  let coll := Spec.user_collection u "files" in
  fault b (UploadBytesResumable path f) = None ->
  (fault b (GetDownloadURL path) <> None
   \/ forall data, fault b (AddDoc coll data) <> None) ->
  let r := run (handleCreate b) st w in
  fst r = Pending
  /\ storage (world (snd r)) = <[path := f]> (storage w)
  /\ firestore (world (snd r)) = firestore w
  /\ (ConsoleError ∉ log (snd r))
  /\ isSubmitting (view (ui (snd r))) = true
  /\ modals (ui (snd r)) = modals st
  /\ form (ui (snd r)) = form st.
Proof.
  intros Hu Hm Hsel Hlim path coll Hup Hlater r.
  pose proof (room_in_vault st Hlim) as Hroom.
  pose proof (eq_refl : r = run (handleCreate b) st w) as Hr. clearbody r.
  upload_run Hr Hu Hm Hsel Hroom q. fold path in Hr.
  revert Hr. step_dash. rewrite Hup. step_dash.
  destruct (fault b (GetDownloadURL path)) as [c1|] eqn:Hurl.
  - intros ->. cbn. repeat split.
    intros Hin. repeat (apply elem_of_cons in Hin as [Hin | Hin]; [discriminate|]).
    by apply elem_of_nil in Hin.
  - destruct Hlater as [Hurl' | Hadd]; [done|].
    user_paths u. fold coll.
    match goal with
    | |- context [fault b (AddDoc coll ?data)] =>
        specialize (Hadd data); destruct (fault b (AddDoc coll data)); [|done]
    end.
    intros ->. cbn. repeat split.
    intros Hin. repeat (apply elem_of_cons in Hin as [Hin | Hin]; [discriminate|]).
    by apply elem_of_nil in Hin.
Qed.

(** X11. Submitting the folder, note or member form always ends normally
    with the submitting flag cleared, and never touches blob storage.
    When the store accepts the write the form is closed and reset and no
    error is logged; when it rejects the write the error is logged, the
    store is unchanged and the form stays open with what was typed. *)
Theorem form_kept_on_failure_cleared_on_success
    (st : State) (w : World) (u : User) (type : ModalType) :
  user st = Some u ->
  modalOpen (modals st) = Some type ->
  type <> file ->
  let r := run (handleCreate b) st w in
  (fst r = Ok tt)
  /\ isSubmitting (view (ui (snd r))) = false
  /\ storage (world (snd r)) = storage w
  /\ ((forall coll data, fault b (AddDoc coll data) = None) ->
      modals (ui (snd r)) = mkModals None (deleteConfirmation (modals st))
      /\ form (ui (snd r)) = mkForm None FormData.initial
      /\ (ConsoleError ∉ log (snd r)))
  /\ ((forall coll data, fault b (AddDoc coll data) <> None) ->
      modals (ui (snd r)) = modals st
      /\ form (ui (snd r)) = form st
      /\ firestore (world (snd r)) = firestore w
      /\ (ConsoleError ∈ log (snd r))).
Proof.
  intros Hu Hm Hty r. subst r.
  unfold handleCreate. step_dash. rewrite Hu, Hm.
  destruct type; [| done | |]; step_dash;
    match goal with
    | |- context [fault b (AddDoc ?coll ?data)] =>
        destruct (fault b (AddDoc coll data)) as [c|] eqn:Hf
    end; cbn -[effect].
  all: repeat match goal with
              | |- _ /\ _ => split
              | |- (forall coll data, _) -> _ =>
                  let H := fresh in
                  intros H;
                  match goal with
                  | Hf : fault b (AddDoc ?coll ?data) = _ |- _ =>
                      specialize (H coll data); rewrite Hf in H
                  end
              end; try reflexivity; try done.
  all: try (apply list_elem_of_In; cbn; tauto).
  all: try (intros Hin; repeat (apply elem_of_cons in Hin as [Hin | Hin];
                                  [discriminate|]); by apply elem_of_nil in Hin).
Qed.

(** X12. A confirmed deletion, whatever the kind of item and whatever
    the backend answers, ends normally with the submitting flag cleared.
    Every call it makes is the deletion of the record
    [users/<uid>/<collection>/<id>] or, for a file with a non-empty
    storage path, the deletion of that blob.  Documents of every other
    collection are untouched.  The confirmation dialog is closed exactly
    when the record deletion succeeded; then the collection has lost the
    documents with that id and nothing else, and otherwise the document
    store is unchanged and the dialog stays open. *)
Theorem confirmDeletion_scope
    (st : State) (w : World) (u : User) (dc : DeleteConfirmation.t) :
  user st = Some u ->
  deleteConfirmation (modals st) = Some dc ->
  let coll := Spec.user_collection u (collection_name (DeleteConfirmation.type dc)) in
  let record := DeleteDoc coll (DeleteConfirmation.id dc) in
  let r := run (confirmDeletion b) st w in
  fst r = Ok tt
  /\ isSubmitting (view (ui (snd r))) = false
  /\ (forall c o, Call c o ∈ log (snd r) ->
      c = record
      \/ (DeleteConfirmation.type dc = files
          /\ exists p, DeleteConfirmation.storagePath dc = Some p /\ p <> ""
                       /\ c = DeleteObject p))
  /\ (forall coll', coll' <> coll -> docsAt coll' (world (snd r)) = docsAt coll' w)
  /\ (deleteConfirmation (modals (ui (snd r))) = None <->
      Call record None ∈ log (snd r))
  /\ (Call record None ∈ log (snd r) ->
      docsAt coll (world (snd r))
      = filter (fun d => doc_id d <> DeleteConfirmation.id dc) (docsAt coll w))
  /\ (Call record None ∉ log (snd r) ->
      firestore (world (snd r)) = firestore w
      /\ deleteConfirmation (modals (ui (snd r))) = Some dc).
Proof.
  intros Hu Hdc coll record r. subst r.
  unfold confirmDeletion. step_dash. rewrite Hu, Hdc. step_dash.
  change ("users/" +:+ uid u +:+ "/" +:+ collection_name (DeleteConfirmation.type dc))
    with coll. fold record.
  assert (Hsame : forall w0, docsAt coll (effect b record w0)
                             = filter (fun d => doc_id d <> DeleteConfirmation.id dc)
                                      (docsAt coll w0))
    by (intros; apply docsAt_delete_same).
  assert (Hother : forall w0 coll', coll' <> coll ->
                     docsAt coll' (effect b record w0) = docsAt coll' w0)
    by (intros; by apply docsAt_delete_other).
  destruct (DeleteConfirmation.type dc) eqn:Hty;
    destruct (DeleteConfirmation.storagePath dc) as [p|] eqn:Hp;
    try destruct (Js.truthy p) eqn:Htp; step_dash;
    repeat match goal with
           | |- context [fault b ?c] => destruct (fault b c) eqn:?
           end; cbn -[effect].
  all: try apply JsFacts.truthy_true in Htp.
  all: repeat match goal with
              | |- _ /\ _ => split
              | |- _ <-> _ => split
              | |- forall _, _ => intros ?
              end.
  all: repeat match goal with
              | H : context [_ ∈ _ :: _] |- _ => rewrite elem_of_cons in H
              | H : context [_ ∈ []] |- _ => rewrite elem_of_nil in H
              | |- context [_ ∈ _ :: _] => rewrite elem_of_cons
              | |- context [_ ∈ []] => rewrite elem_of_nil
              end.
  all: try reflexivity; try congruence.
  all: try (apply Hother; assumption).
  all: try (rewrite ?Hsame; reflexivity).
  all: try (rewrite Hother by assumption; reflexivity).
  all: intuition (subst; try discriminate; try congruence; eauto 8).
  all: match goal with
       | H : Call _ _ = Call _ _ |- _ => injection H as -> _
       end; right; split; [reflexivity | exists p; auto].
Qed.
End DashboardOutcomes.

(* ===================================================================== *)
(** * What the dashboard's mutations leave alone at the backend *)
(* ===================================================================== *)

(** Frame rules for the handler combinators. *)
Section Preserves.
Import Sdk Handler.
Context {S X : Type} (part : Sys S -> X).
Abbreviation preserves := (Spec.preserves part).

Lemma preserves_ret {A} (a : A) : preserves (ret a).
Proof. by intros s. Qed.

Lemma preserves_return {A} : preserves (@return_ S A).
Proof. by intros s. Qed.

Lemma preserves_get : preserves (@get S).
Proof. by intros s. Qed.

Lemma preserves_get_world : preserves (@get_world S).
Proof. by intros s. Qed.

Lemma preserves_step {A} (m : M S A) :
  (forall s, part (snd (m s)) = part s) -> preserves m.
Proof. auto. Qed.

Lemma preserves_bind {A B} (m : M S A) (k : A -> M S B) :
  preserves m -> (forall a, preserves (k a)) -> preserves (bind m k).
Proof.
  intros Hm Hk s. unfold bind. specialize (Hm s).
  destruct (m s) as [[a| | |] s']; cbn [snd] in *; try assumption.
  by rewrite Hk.
Qed.

Lemma preserves_after_finally {A} (r : Res A) (fin : M S unit) :
  preserves fin -> preserves (after_finally r fin).
Proof.
  intros Hf s. unfold after_finally. specialize (Hf s).
  by destruct (fin s) as [[[]| | |] s'].
Qed.

Lemma preserves_try {A} (body : M S A) handler fin :
  preserves body -> (forall e, preserves (handler e)) -> preserves fin ->
  preserves (try_catch_finally body handler fin).
Proof.
  intros Hb Hh Hf s. unfold try_catch_finally. specialize (Hb s).
  destruct (body s) as [[a|e| |] s1]; cbn [snd] in *.
  - by rewrite preserves_after_finally.
  - specialize (Hh e s1).
    destruct (handler e s1) as [[a|e'| |] s2]; cbn [snd] in *;
      rewrite ?preserves_after_finally by assumption; congruence.
  - by rewrite preserves_after_finally.
  - assumption.
Qed.

Lemma preserves_unsettled {A} (m : M S A) :
  preserves m -> preserves (unsettled_on_throw m).
Proof.
  intros Hm s. unfold unsettled_on_throw. specialize (Hm s).
  by destruct (m s) as [[a|e| |] s'].
Qed.

Lemma preserves_for_each {A} (l : list A) (f : A -> M S unit) :
  (forall x, preserves (f x)) -> preserves (for_each l f).
Proof.
  intros Hf. induction l as [|x l IH]; cbn [for_each].
  - apply preserves_ret.
  - by apply preserves_bind.
Qed.
End Preserves.

(** The session is untouched by state setters, by console output, and
    by the calls to the document store and the blob store. *)
Section Session.
Import Sdk Handler.
Variable b : Backend.
Context {S : Type}.

Lemma filter_page_callback_snoc (l : list Event) (e : Event) :
  Spec.page_callback e = false ->
  List.filter Spec.page_callback (l ++ [e]) = List.filter Spec.page_callback l.
Proof.
  intros He. rewrite List.filter_app. cbn. rewrite He. apply app_nil_r.
Qed.

Lemma session_modify (f : S -> S) : Spec.preserves Spec.session (modify f).
Proof. by intros s. Qed.

Lemma session_console_error : Spec.preserves Spec.session (@console_error S).
Proof.
  intros s. unfold Spec.session. cbn. by rewrite filter_page_callback_snoc.
Qed.

Lemma session_tick : Spec.preserves Spec.session (@modify_world S tick).
Proof. by intros s. Qed.

Lemma session_invoke (c : SdkCall) :
  match c with
  | UploadBytesResumable _ _ | GetDownloadURL _ | AddDoc _ _
  | DeleteObject _ | DeleteDoc _ _ => True
  | _ => False
  end ->
  Spec.preserves Spec.session (@invoke b S c).
Proof.
  intros Hc s. unfold invoke, Spec.session.
  destruct (fault b c); cbn [snd world log];
    rewrite filter_page_callback_snoc by reflexivity;
    destruct c; try done.
Qed.
End Session.

(** Proves a session frame by following the structure of the handler. *)
Ltac session :=
  repeat first
    [ apply preserves_ret | apply preserves_return | apply preserves_get
    | apply preserves_get_world | apply session_console_error
    | apply session_tick | apply session_modify
    | apply session_invoke; exact I
    | apply preserves_bind; [|intros ?]
    | apply preserves_try; [|intros ?|]
    | apply preserves_unsettled
    | apply preserves_for_each; intros ?
    | match goal with
      | |- Spec.preserves _ (match ?x with _ => _ end) => destruct x
      end ].

Section SessionFrame.
Import Sdk Handler Dashboard.
Variable b : Backend.

(** X13. Creating and deleting never touch the session, whatever the
    form, the confirmation and the backend's answers: after
    [handleCreate] and after [confirmDeletion] the signed-in user, the
    mails sent and the route are as before, and the handler has made no
    callback into the page (no modal closed, no navigation). *)
Theorem create_and_delete_leave_session (st : State) (w : World) :
  let created := snd (run (handleCreate b) st w) in
  let deleted := snd (run (confirmDeletion b) st w) in
  (currentUser (world created) = currentUser w
   /\ outbox (world created) = outbox w
   /\ location_hash (world created) = location_hash w
   /\ (forall e, e ∈ log created -> Spec.page_callback e = false))
  /\ (currentUser (world deleted) = currentUser w
      /\ outbox (world deleted) = outbox w
      /\ location_hash (world deleted) = location_hash w
      /\ (forall e, e ∈ log deleted -> Spec.page_callback e = false)).
Proof.
  assert (Hframe : forall m : M State unit,
             Spec.preserves Spec.session m ->
             let s := snd (run m st w) in
             currentUser (world s) = currentUser w
             /\ outbox (world s) = outbox w
             /\ location_hash (world s) = location_hash w
             /\ (forall e, e ∈ log s -> Spec.page_callback e = false)).
  { intros m Hm. cbv zeta. unfold run.
    specialize (Hm (mkSys st w [])). unfold Spec.session in Hm.
    cbn [world log List.filter] in Hm.
    injection Hm as Hu Ho Hl Hf. repeat split; try assumption.
    intros e He. destruct (Spec.page_callback e) eqn:Hp; [|reflexivity].
    assert (Hin : In e (List.filter Spec.page_callback
                          (log (snd (m (mkSys st w [])))))).
    { apply filter_In. split; [by apply list_elem_of_In | exact Hp]. }
    rewrite Hf in Hin. destruct Hin. }
  split; apply Hframe.
  - unfold handleCreate, upload, addDoc, getDownloadURL, newDocId. session.
  - unfold confirmDeletion, deleteObject, deleteDoc. session.
Qed.
End SessionFrame.

(* ===================================================================== *)
(** * The files tab and the round trips through the store *)
(* ===================================================================== *)

Lemma lower_upper_ascii (c : ascii) :
  Js.lower_ascii (Js.upper_ascii c) = Js.lower_ascii c.
Proof. destruct c as [[] [] [] [] [] [] [] []]; reflexivity. Qed.

Lemma toLowerCase_toUpperCase (s : string) :
  Js.toLowerCase (Js.toUpperCase s) = Js.toLowerCase s.
Proof.
  induction s as [|c s IH]; simpl; [reflexivity|].
  by rewrite lower_upper_ascii, IH.
Qed.

Section FilesTab.
Import Sdk Dashboard.

(** X16. The search of the files tab ignores the case of what is typed:
    for a query of ASCII characters, the query in capitals lists the
    same files and folders as the query itself.  With an empty query
    nothing is filtered out by name: the files listed are exactly the
    files of the open folder, or at the root the files that are in no
    folder. *)
Theorem search_ignores_case_of_query (st : State) (q : string) :
  Js.ascii_only q = true ->
  filteredFiles (setSearchQuery (Js.toUpperCase q) st)
  = filteredFiles (setSearchQuery q st)
  /\ filteredFolders (setSearchQuery (Js.toUpperCase q) st)
     = filteredFolders (setSearchQuery q st)
  /\ (forall f, f ∈ filteredFiles (setSearchQuery "" st) <->
                f ∈ d_files (data st)
                /\ (if Js.truthy_opt (currentFolderId (view st))
                    then FileItem.folderId f = currentFolderId (view st)
                    else Js.truthy_opt (FileItem.folderId f) = false)).
Proof.
  intros _.
  unfold filteredFiles, filteredFolders. cbn. rewrite toLowerCase_toUpperCase.
  split; [reflexivity|]. split; [reflexivity|].
  intros f. rewrite !list_elem_of_In, filter_In, andb_true_iff.
  change (Js.toLowerCase "") with "". rewrite JsFacts.includes_empty_query.
  destruct (Js.truthy_opt (currentFolderId (view st))).
  - rewrite bool_decide_eq_true. tauto.
  - rewrite negb_true_iff. tauto.
Qed.

(** X17. Clicking a folder row opens that folder, for file names and a
    query of ASCII characters: no folder rows are listed any more
    (folders are shown at the root only), and the files listed are
    exactly the files recorded in that folder whose name matches the
    query, which the click leaves as typed.  Going back to the root
    lists what the root listed before, and changing tab leaves the
    folder. *)
Theorem open_folder_shows_its_files (st : State) (f : FolderItem.t) :
  FolderItem.id f <> "" ->
  Js.ascii_only (searchQuery (view st)) = true ->
  (forall x, x ∈ d_files (data st) -> Js.ascii_only (FileItem.name x) = true) ->
  let st' := clickFolder f st in
  searchQuery (view st') = searchQuery (view st)
  /\ filteredFolders st' = []
  /\ (forall x, x ∈ filteredFiles st' <->
                x ∈ d_files (data st)
                /\ FileItem.folderId x = Some (FolderItem.id f)
                /\ Js.matchesQuery (FileItem.name x) (searchQuery (view st)) = true)
  /\ filteredFiles (clickRoot st') = filteredFiles (clickRoot st)
  /\ forall tab, currentFolderId (view (clickTab tab st')) = None.
Proof.
  intros Hid _ _ st'. subst st'. apply JsFacts.truthy_true in Hid.
  unfold filteredFolders, filteredFiles, clickFolder, clickRoot, clickTab. cbn.
  rewrite Hid. cbn. split; [reflexivity|]. split; [|split; [|split]].
  - induction (d_folders (data st)) as [|y l IH]; [reflexivity | exact IH].
  - intros x.
    rewrite list_elem_of_In, filter_In, andb_true_iff, bool_decide_eq_true.
    rewrite <- list_elem_of_In. unfold Js.matchesQuery. tauto.
  - reflexivity.
  - reflexivity.
Qed.
End FilesTab.

Section RoundTrips.
Import Sdk Handler Dashboard.
Variable b : Backend.

#[local] Existing Instance ordered_total.
#[local] Existing Instance ordered_trans.

(** A document more recent than all the others comes first in a
    newest-first result, and the others follow in some order. *)
Lemma newest_comes_first (q : Query) (l : list Doc) (d : Doc) :
  q_direction q = desc ->
  (forall x, x ∈ l -> (order_key q x < order_key q d)%Z) ->
  exists rest, merge_sort (ordered q) (l ++ [d]) = d :: rest /\ rest ≡ₚ l.
Proof.
  intros Hdesc Hold.
  pose proof (StronglySorted_merge_sort (ordered q) (l ++ [d])) as Hsorted.
  pose proof (merge_sort_Permutation (ordered q) (l ++ [d])) as Hperm.
  destruct (merge_sort (ordered q) (l ++ [d])) as [|h rest].
  - apply Permutation_nil in Hperm. by destruct l.
  - assert (Hh : h ∈ l ++ [d]) by (rewrite <- Hperm; left).
    assert (Hd : d ∈ h :: rest).
    { rewrite Hperm. apply elem_of_app. right. by apply list_elem_of_singleton. }
    apply StronglySorted_inv in Hsorted as [_ Hall].
    assert (h = d) as ->.
    { apply elem_of_app in Hh as [Hh | Hh]; [|by apply list_elem_of_singleton in Hh].
      apply elem_of_cons in Hd as [-> | Hd]; [reflexivity|].
      rewrite Forall_forall in Hall. specialize (Hall d Hd).
      unfold ordered in Hall. rewrite Hdesc in Hall.
      specialize (Hold h Hh). lia. }
    exists rest. split; [reflexivity|].
    apply (Permutation_cons_inv (a := d)).
    rewrite Hperm. by rewrite Permutation_app_comm.
Qed.

(** X18. Round trip of a folder through the store.  When the store
    accepts the write, every folder already stored is older than the
    server clock and no two of them carry the same creation time, then
    after the folders listener has delivered, the folder just created
    is the first one listed, under its generated id and with the name
    typed ('Untitled Folder' when none was typed), and it is followed
    by the folders listed before, in the order they were listed in. *)
Theorem created_folder_is_listed_first (st : State) (w : World) (u : User) :
  user st = Some u ->
  modalOpen (modals st) = Some folder ->
  (forall coll data, fault b (AddDoc coll data) = None) ->
  (forall d t, d ∈ docsAt (Spec.user_collection u "folders") w ->
               time_field "createdAt" (doc_data d) = Some t -> (t < clock w)%Z) ->
  (forall d1 d2 t,
      d1 ∈ docsAt (Spec.user_collection u "folders") w ->
      d2 ∈ docsAt (Spec.user_collection u "folders") w ->
      time_field "createdAt" (doc_data d1) = Some t ->
      time_field "createdAt" (doc_data d2) = Some t -> d1 = d2) ->
  let s := snd (run (handleCreate b) st w) in
  let name := FormData.name (formData (form st)) in
  d_folders (data (synchronise (world s) (ui s)))
  = FolderItem.mk (autoId b (nonce w))
                  (if decide (name = "") then "Untitled Folder" else name)
                  (Some (clock w))
    :: d_folders (data (synchronise w st)).
Proof.
  intros Hu Hm Hadd Hold Hdistinct s name.
  set (coll := Spec.user_collection u "folders") in *.
  set (q := mkQuery coll "createdAt" desc).
  set (d := mkDoc (autoId b (nonce w))
              (stored_data (clock w)
                 [("name", Lit (VStr (Js.or_else name "Untitled Folder")));
                  ("createdAt", serverTimestamp)])).
  assert (Hs : user (ui s) = Some u /\ docsAt coll (world s) = docsAt coll w ++ [d]).
  { subst s. unfold handleCreate. step_dash. rewrite Hu, Hm. step_dash.
    user_paths u. fold coll. rewrite Hadd. cbn -[effect].
    split; [exact Hu | apply docsAt_add_same]. }
  destruct Hs as [Hu' Hdocs].
  destruct (synchronise_collections (ui s) u (world s) Hu') as (-> & _).
  destruct (synchronise_collections st u w Hu) as (-> & _).
  fold coll. fold q. unfold runQuery. cbn [q_path q]. rewrite Hdocs.
  rewrite List.filter_app. cbn [List.filter].
  change (has_order_field q d) with true. cbn iota.
  set (old := List.filter (has_order_field q) (docsAt coll w)).
  assert (Hdated : forall x, x ∈ old ->
            x ∈ docsAt coll w
            /\ exists t, time_field "createdAt" (doc_data x) = Some t).
  { intros x Hx. apply list_elem_of_In, filter_In in Hx as [Hx Hfield].
    apply list_elem_of_In in Hx. split; [exact Hx|].
    unfold has_order_field in Hfield. by apply bool_decide_eq_true in Hfield. }
  pose proof (StronglySorted_merge_sort (ordered q) (old ++ [d])) as Hsorted.
  destruct (newest_comes_first q old d eq_refl) as (rest & Hrest & Hperm).
  { intros x Hx. destruct (Hdated x Hx) as (Hin & t & Ht).
    specialize (Hold x t Hin Ht).
    change (order_key q d) with (clock w).
    unfold order_key. cbn [q_field q]. rewrite Ht. exact Hold. }
  rewrite Hrest in Hsorted |- *. apply StronglySorted_inv in Hsorted as [Hsorted _].
  assert (rest = merge_sort (ordered q) old) as ->.
  { apply (StronglySorted_unique_strong (ordered q)).
    - intros x1 x2 H1 H2 H12 H21.
      rewrite Hperm in H1. rewrite merge_sort_Permutation in H2.
      destruct (Hdated x1 H1) as (Hin1 & t1 & Ht1).
      destruct (Hdated x2 H2) as (Hin2 & t2 & Ht2).
      unfold ordered, order_key in H12, H21. cbn [q_direction q_field q] in H12, H21.
      rewrite Ht1, Ht2 in H12, H21. cbn in H12, H21.
      assert (t1 = t2) as -> by lia.
      exact (Hdistinct x1 x2 t2 Hin1 Hin2 Ht1 Ht2).
    - exact Hsorted.
    - apply StronglySorted_merge_sort; apply _.
    - rewrite Hperm. symmetry. apply merge_sort_Permutation. }
  cbn [map]. f_equal. subst d name. rewrite <- or_else_decide. reflexivity.
Qed.

Lemma synchronise_keeps_user (w : World) (st : State) :
  user (synchronise w st) = user st.
Proof.
  unfold synchronise, listeners.
  destruct (user st) eqn:Hu; cbn; rewrite ?Hu; reflexivity.
Qed.

(** X19. Round trip of a file.  On a backend that accepts every call,
    a file uploaded below the limit to a path not yet in storage
    appears, once the files listener has delivered, in the local list
    with the name, size and type of the selected file, the folder that
    was open, its storage path and its download URL.  Asking to delete
    that item and confirming then removes the blob and the record again:
    blob storage and the user's files collection are as before the
    upload, and the confirmation dialog is closed. *)
Theorem upload_then_delete_restores
    (st : State) (w : World) (u : User) (f : File) :
  user st = Some u ->
  modalOpen (modals st) = Some file ->
  selectedFile (form st) = Some f ->
  (length (d_files (data st)) < FILE_LIMIT)%nat ->
  (forall c, fault b c = None) ->
  let path := "user_uploads/" +:+ uid u +:+ "/" +:+ autoId b (nonce w) +:+ "-"
                +:+ file_name f in
  let coll := Spec.user_collection u "files" in
  storage w !! path = None ->
  (forall d, d ∈ docsAt coll w -> doc_id d <> autoId b (N.succ (nonce w))) ->
  let s1 := snd (run (handleCreate b) st w) in
  let st1 := synchronise (world s1) (ui s1) in
  exists item,
    item ∈ d_files (data st1)
    /\ FileItem.name item = file_name f
    /\ FileItem.size item = file_size f
    /\ FileItem.type item = file_type f
    /\ FileItem.folderId item = currentFolderId (view st)
    /\ FileItem.storagePath item = path
    /\ FileItem.downloadURL item = urlOf b path
    /\ let s2 := snd (run (confirmDeletion b) (clickDeleteFile item st1) (world s1)) in
       storage (world s2) = storage w
       /\ docsAt coll (world s2) = docsAt coll w
       /\ deleteConfirmation (modals (ui s2)) = None.
Proof.
  intros Hu Hm Hsel Hlim Hok path coll Hpath Hfresh s1 st1.
  destruct (handleCreate_upload_ok b st w u f Hu Hm Hsel Hlim
              (Hok _) (Hok _) (Hok _)) as [q Hrun].
  fold path coll in Hrun.
  match type of Hrun with
  | context [AddDoc coll ?l] => set (fields := l) in Hrun
  end.
  set (d := mkDoc (autoId b (N.succ (nonce w))) (stored_data (clock w + 1) fields)).
  assert (Hw1 : docsAt coll (world s1) = docsAt coll w ++ [d]
                /\ storage (world s1) = <[path := f]> (storage w)
                /\ user (ui s1) = Some u).
  { subst s1. rewrite Hrun. cbn [snd world ui].
    split; [apply docsAt_add_same | split; [reflexivity | exact Hu]]. }
  destruct Hw1 as (Hdocs & Hstore & Hu1). clearbody s1. clear Hrun.
  assert (Hu1' : user st1 = Some u)
    by (subst st1; by rewrite synchronise_keeps_user).
  set (item := asFileItem (snapshot_object d)).
  exists item.
  assert (Hitem : item ∈ d_files (data st1)).
  { subst st1.
    destruct (synchronise_collections (ui s1) u (world s1) Hu1) as (_ & -> & _).
    apply list_elem_of_In, in_map, in_map, list_elem_of_In.
    apply elem_of_runQuery. cbn [q_path q_field]. fold coll. rewrite Hdocs.
    split; [apply elem_of_app; right; by apply list_elem_of_singleton|].
    by exists (clock w + 1)%Z. }
  split; [exact Hitem|].
  assert (Hfolder : FileItem.folderId item = currentFolderId (view st)).
  { subst item d fields. cbn. by destruct (currentFolderId (view st)). }
  repeat (split; [first [reflexivity | exact Hfolder]|]).
  cbv zeta. unfold confirmDeletion. step_dash.
  change (user (clickDeleteFile item st1)) with (user st1). rewrite Hu1'.
  cbn [clickDeleteFile setDeleteConfirmation with_modals modals deleteConfirmation
       DeleteConfirmation.type DeleteConfirmation.storagePath DeleteConfirmation.id].
  change (FileItem.storagePath item) with path.
  change (Js.truthy path) with true. cbn iota. step_dash.
  rewrite !Hok. cbn -[effect]. user_paths u. fold coll.
  split; [|split; [|reflexivity]].
  - cbn. fold (world s1). rewrite Hstore. by apply delete_insert_id.
  - fold (world s1). etrans; [apply docsAt_delete_same|].
    change (docsAt coll (effect b (DeleteObject path) (world s1)))
      with (docsAt coll (world s1)).
    rewrite Hdocs, filter_app.
    change (FileItem.id item) with (doc_id d).
    rewrite filter_cons_False by (intros Hne; by apply Hne).
    rewrite filter_nil, app_nil_r.
    clear -Hfresh. induction (docsAt coll w) as [|x l IH]; [reflexivity|].
    rewrite filter_cons_True by (apply Hfresh; left).
    f_equal. apply IH. intros y Hy. apply Hfresh. by right.
Qed.
End RoundTrips.

(* ===================================================================== *)
(** * Loading, labels, and the dashboard on local mock data *)
(* ===================================================================== *)

Section Loading.
Import Sdk Handler Dashboard.

(** X20. The loading screen.  Without a signed-in user no listener is
    registered, so nothing is delivered and a dashboard that is loading
    keeps showing the loading screen.  Of the four listeners only the
    last one, on the team members, clears the loading flag; the other
    three leave it as it is.  With a user whose documents in the store
    are well formed, once all four have delivered the page shows its
    content. *)
Theorem loading_ends_with_members_snapshot (st : State) (w : World) :
  (user st = None ->
   listeners st = [] /\ synchronise w st = st
   /\ (isLoading (view st) = true -> render (synchronise w st) = None))
  /\ (forall (i : nat) l, listeners st !! i = Some l ->
        isLoading (view (deliver l w st))
        = if decide (i = 3%nat) then false else isLoading (view st))
  /\ (forall u, user st = Some u -> Spec.well_formed u w = true ->
      isLoading (view (synchronise w st)) = false
      /\ render (synchronise w st) = Some (content (synchronise w st))).
Proof.
  unfold synchronise, listeners, render.
  destruct (user st) as [u|] eqn:Hu; split; [| split | | split].
  - discriminate.
  - intros i l Hl.
    destruct i as [|[|[|[|i]]]]; cbn in Hl; try discriminate;
      injection Hl as <-; reflexivity.
  - intros u' _ _. split; reflexivity.
  - intros _. cbn. repeat split. by intros ->.
  - intros i l Hl. by rewrite lookup_nil in Hl.
  - intros u' H. discriminate H.
Qed.
End Loading.

Section Labels.
Import Sdk Dashboard.

Lemma includes_char (c sep : ascii) (s : string) :
  Js.includes (String c s) (String sep "")
  = Ascii.eqb c sep || Js.includes s (String sep "").
Proof.
  cbn [Js.includes String.prefix].
  destruct (ascii_dec sep c) as [->|Hne].
  - rewrite Ascii.eqb_refl. by destruct s.
  - destruct (Ascii.eqb_spec c sep); [congruence | reflexivity].
Qed.

Lemma split_no_separator (sep : ascii) (s : string) :
  Js.includes s (String sep "") = false -> Js.split sep s = [s].
Proof.
  induction s as [|c s IH]; [reflexivity|].
  rewrite includes_char. intros H. apply orb_false_iff in H as [Hc Hs].
  cbn [Js.split]. rewrite Hc, (IH Hs). reflexivity.
Qed.

Lemma split_at_separator (sep : ascii) (a b : string) :
  Js.includes a (String sep "") = false ->
  Js.split sep (a +:+ String sep b) = a :: Js.split sep b.
Proof.
  induction a as [|c a IH].
  - intros _. rewrite JsFacts.append_empty. cbn [Js.split].
    by rewrite Ascii.eqb_refl.
  - rewrite includes_char. intros H. apply orb_false_iff in H as [Hc Ha].
    rewrite JsFacts.append_String. cbn [Js.split]. rewrite Hc, (IH Ha).
    reflexivity.
Qed.

Lemma toUpperCase_empty (s : string) : Js.toUpperCase s = "" <-> s = "".
Proof. destruct s; cbn; split; congruence. Qed.

(** X21. The type label of a file row is never empty.  It is 'FILE'
    when the MIME type has no slash or nothing after its slash, and
    otherwise the part after the slash in capitals. *)
Theorem fileTypeLabel_cases (f : FileItem.t) :
  fileTypeLabel f <> ""
  /\ (Js.includes (FileItem.type f) "/" = false -> fileTypeLabel f = "FILE")
  /\ (forall a b,
        FileItem.type f = a +:+ "/" +:+ b ->
        Js.includes a "/" = false -> Js.includes b "/" = false ->
        fileTypeLabel f = if decide (b = "") then "FILE" else Js.toUpperCase b).
Proof.
  unfold fileTypeLabel. split; [|split].
  - destruct (Js.split "/" (FileItem.type f) !! 1%nat) as [x|]; [|discriminate].
    rewrite or_else_decide. case_decide; done.
  - intros H. by rewrite (split_no_separator _ _ H).
  - intros a b -> Ha Hb.
    change (a +:+ "/" +:+ b) with (a +:+ String "/" b).
    rewrite (split_at_separator _ _ _ Ha), (split_no_separator _ _ Hb).
    cbn [lookup list_lookup]. rewrite or_else_decide.
    destruct (decide (b = "")) as [->|Hne]; [reflexivity|].
    case_decide as Hup; [|reflexivity].
    apply (proj1 (toUpperCase_empty b)) in Hup. congruence.
Qed.
End Labels.

Section Mock.
Import Sdk MockDashboard.

Lemma substring_0_2 (s : string) :
  Js.substring s 0 2
  = match s with
    | String a (String c _) => String a (String c "")
    | _ => s
    end.
Proof. destruct s as [|a [|c [|e s]]]; reflexivity. Qed.

(** X22. For a display name and an email of ASCII characters, the
    initials shown in the header are one or two characters, never none:
    the first two characters, in capitals, of the display name when
    there is a non-empty one, else of the user's email when it is
    non-empty, and 'U' when there is no name and nobody is signed in. *)
Theorem getInitials_never_empty (user : option User) (name : option string) :
  (forall n, name = Some n -> Js.ascii_only n = true) ->
  (forall u, user = Some u -> Js.ascii_only (user_email u) = true) ->
  let r := getInitials user name in
  (1 <= String.length r <= 2)%nat
  /\ (forall n, name = Some n -> n <> "" -> r = Js.toUpperCase (Js.substring n 0 2))
  /\ (Js.truthy_opt name = false -> user = None -> r = "U")
  /\ (Js.truthy_opt name = false ->
      forall u, user = Some u -> user_email u <> "" ->
                r = Js.toUpperCase (Js.substring (user_email u) 0 2)).
Proof.
  intros _ _. cbv zeta. unfold getInitials. split; [|split; [|split]].
  - assert (Hlen : forall s, s <> "" ->
               (1 <= String.length (Js.toUpperCase (Js.substring s 0 2)) <= 2)%nat).
    { intros s Hs. rewrite substring_0_2.
      destruct s as [|a [|c s]]; [done | cbn; lia | cbn; lia]. }
    destruct (Js.truthy_opt name) eqn:Hn.
    + destruct name as [n|]; [|discriminate]. apply Hlen.
      by apply JsFacts.truthy_true.
    + destruct user as [u|]; [|cbn; lia].
      apply Hlen. rewrite or_else_decide. by case_decide.
  - intros n -> Hn. apply JsFacts.truthy_true in Hn. cbn. by rewrite Hn.
  - by intros -> ->.
  - intros -> u -> Hu. by rewrite (JsFacts.or_else_nonempty _ _ Hu).
Qed.

(** X23. On the mock dashboard the item just created is displayed at
    once, at the head of the list of the folder that is open, and the
    other list is unchanged.  A folder gets the name typed or 'Untitled
    Folder'; a file gets the name typed or the selected file's name, its
    MIME type, and the type 'image' when the MIME type starts with
    'image/' and 'doc' otherwise. *)
Theorem mock_created_item_is_displayed
    (now_id now_ts : Z) (st : State) :
  match currentFolder st with
  | Some c => FolderItem.id c <> ""
  | None => True
  end ->
  let st' := handleCreate now_id now_ts st in
  (modalOpen st = Some folder ->
   exists f,
     displayFolders st' = f :: displayFolders st
     /\ FolderItem.name f = (if decide (newItemName st = "")
                             then "Untitled Folder" else newItemName st)
     /\ displayFiles st' = displayFiles st)
  /\ (forall sel, modalOpen st = Some file -> selectedFile st = Some sel ->
      exists f,
        displayFiles st' = f :: displayFiles st
        /\ FileItem.name f = (if decide (newItemName st = "")
                              then file_name sel else newItemName st)
        /\ FileItem.type f = (if Js.startsWith (file_type sel) "image/"
                              then "image" else "doc")
        /\ FileItem.mimeType f = file_type sel
        /\ displayFolders st' = displayFolders st).
Proof.
  intros Hcur st'. subst st'. unfold handleCreate, displayFolders, displayFiles.
  assert (Hshown :
    match currentFolder st with
    | Some c => bool_decide (currentFolder_id st = Some (FolderItem.id c))
    | None => negb (Js.truthy_opt (currentFolder_id st))
    end = true).
  { unfold currentFolder_id. destruct (currentFolder st) as [c|]; [|reflexivity].
    apply JsFacts.truthy_true in Hcur. rewrite Hcur. by apply bool_decide_eq_true. }
  split.
  - intros ->. cbn. rewrite Hshown. eexists. repeat split.
    cbn. apply or_else_decide.
  - intros sel -> ->. cbn. rewrite Hshown. eexists. repeat split.
    cbn. apply or_else_decide.
Qed.

(** X24. On the mock dashboard cancelling a form does not clear the
    name typed in it (only a completed creation does).  So after typing
    a folder name, cancelling, opening the file form, picking a file and
    creating, the new file is stored under the abandoned folder name
    instead of its own name; no folder is created. *)
Theorem mock_stale_name_leaks_into_file
    (now_id now_ts : Z) (st : State) (typed : string) (picked : File) :
  typed <> "" ->
  let st1 := cancel (typeName typed (openModal folder st)) in
  let st2 := pickFile (Some picked) (openModal file st1) in
  let st3 := handleCreate now_id now_ts st2 in
  folders st3 = folders st
  /\ exists f, files st3 = f :: files st
               /\ FileItem.name f = typed
               /\ FileItem.size f = file_size picked.
Proof.
  intros Ht. cbv zeta. unfold handleCreate. cbn.
  split; [reflexivity|]. eexists. repeat split.
  cbn. by apply JsFacts.or_else_nonempty.
Qed.

(** X25. On the mock dashboard [handleCreate] always closes the form,
    clears the submitting flag and the typed name, and leaves the open
    folder and the selected file as they are (the selected file is never
    reset).  It adds at most one folder and at most one file, at the
    head of the list, and adds nothing when no form is open or when the
    file form has no file selected. *)
Theorem mock_handleCreate_always_closes (now_id now_ts : Z) (st : State) :
  let st' := handleCreate now_id now_ts st in
  modalOpen st' = None /\ isSubmitting st' = false /\ newItemName st' = ""
  /\ currentFolder st' = currentFolder st
  /\ selectedFile st' = selectedFile st
  /\ (exists added, folders st' = added ++ folders st /\ (length added <= 1)%nat)
  /\ (exists added, files st' = added ++ files st /\ (length added <= 1)%nat)
  /\ (modalOpen st = None \/ (modalOpen st = Some file /\ selectedFile st = None) ->
      folders st' = folders st /\ files st' = files st).
Proof.
  cbv zeta. unfold handleCreate.
  destruct (modalOpen st) as [[]|], (selectedFile st); cbn.
  all: repeat match goal with
              | |- _ /\ _ => split
              | |- _ \/ _ -> _ => intros [? | [? ?]]
              end; try reflexivity; try discriminate.
  all: try (exists []; split; [reflexivity | cbn; lia]).
  all: try (eexists [_]; split; [reflexivity | cbn; lia]).
Qed.
End Mock.

(* ===================================================================== *)
(** * The further properties at concrete inputs *)
(* ===================================================================== *)

Lemma auth_forms_validate_before_calling_witness :
  let up := snd (Handler.run
                   (AuthModal.handleSignUp Scenario.reliable
                      Scenario.getFirebaseErrorMessage)
                   Scenario.blank_form Scenario.empty_world) in
  AuthModal.email Scenario.blank_form = ""
  /\ Handler.log up = []
  /\ AuthModal.error (Handler.ui up) = Some "Please fill in all required fields.".
Proof.
  destruct (auth_forms_validate_before_calling Scenario.reliable
              Scenario.getFirebaseErrorMessage Scenario.blank_form
              Scenario.empty_world (or_introl eq_refl))
    as ((Hlog & _ & Herr & _) & _).
  exact (conj eq_refl (conj Hlog Herr)).
Defined.

Lemma verified_sign_in_reaches_dashboard_witness :
  let s := snd (Handler.run
                  (AuthModal.handleSignIn (Scenario.reliable_for Scenario.bob)
                     Scenario.getFirebaseErrorMessage)
                  Scenario.sign_in_form Scenario.empty_world) in
  Sdk.emailVerified Scenario.bob = true
  /\ Sdk.location_hash (Handler.world s) = "#/dashboard"
  /\ Sdk.currentUser (Handler.world s) = Some Scenario.bob.
Proof.
  assert (Hform : Spec.reaches_backend Spec.email_password Scenario.sign_in_form)
    by (split; discriminate).
  destruct (verified_sign_in_reaches_dashboard (Scenario.reliable_for Scenario.bob)
              Scenario.getFirebaseErrorMessage Spec.email_password
              Scenario.sign_in_form Scenario.empty_world Hform eq_refl eq_refl)
    as (_ & Hroute & Huser & _).
  exact (conj eq_refl (conj Hroute Huser)).
Defined.

Lemma sign_in_rejected_stays_witness :
  let b := Scenario.failing_with "auth/popup-closed-by-user" in
  let s := snd (Handler.run
                  (AuthModal.handleGoogleSignIn b Scenario.getFirebaseErrorMessage)
                  Scenario.sign_in_form Scenario.empty_world) in
  Handler.log s
  = [ Sdk.Call Sdk.SignInWithPopup (Some "auth/popup-closed-by-user");
      Sdk.ConsoleError ]
  /\ Handler.world s = Scenario.empty_world
  /\ AuthModal.error (Handler.ui s) = None.
Proof.
  destruct (sign_in_rejected_stays
              (Scenario.failing_with "auth/popup-closed-by-user")
              Scenario.getFirebaseErrorMessage Spec.federated
              Scenario.sign_in_form Scenario.empty_world
              "auth/popup-closed-by-user" I eq_refl)
    as (Hlog & Hw & _ & _ & Herr).
  exact (conj Hlog (conj Hw Herr)).
Defined.

Lemma handleSignUp_failures_witness :
  let s := snd (Handler.run
                  (AuthModal.handleSignUp Scenario.throttled
                     Scenario.getFirebaseErrorMessage)
                  Scenario.sign_in_form Scenario.empty_world) in
  Sdk.currentUser (Handler.world s) = Some Scenario.alice
  /\ Sdk.outbox (Handler.world s) = []
  /\ AuthModal.mode (Handler.ui s) = AuthModal.default_mode
  /\ AuthModal.error (Handler.ui s) = Some "Error: auth/too-many-requests".
Proof.
  assert (He : AuthModal.email Scenario.sign_in_form <> "") by discriminate.
  assert (Hp : AuthModal.password Scenario.sign_in_form <> "") by discriminate.
  destruct (handleSignUp_failures Scenario.throttled
              Scenario.getFirebaseErrorMessage Scenario.sign_in_form
              Scenario.empty_world He Hp) as (_ & Hsend & _).
  destruct (Hsend "auth/too-many-requests" eq_refl eq_refl)
    as (_ & Huser & Hout & Hmode & Herr).
  exact (conj Huser (conj Hout (conj Hmode Herr))).
Defined.

Lemma file_upload_stores_blob_then_record_witness :
  let path := "user_uploads/u2/doc1-report.pdf" in
  let r := Handler.run (Dashboard.handleCreate Scenario.reliable)
                       Scenario.roomy_vault Scenario.stocked_world in
  length (Dashboard.d_files (Dashboard.data Scenario.roomy_vault)) = 4%nat
  /\ fst r = Handler.Ok tt
  /\ Sdk.storage (Handler.world (snd r))
     = <[path := Scenario.report]> (Sdk.storage Scenario.stocked_world)
  /\ Dashboard.modalOpen (Dashboard.modals (Handler.ui (snd r))) = None.
Proof.
  destruct (file_upload_stores_blob_then_record Scenario.reliable
              Scenario.roomy_vault Scenario.stocked_world Scenario.bob
              Scenario.report eq_refl eq_refl eq_refl (le_n 5)
              eq_refl eq_refl (fun _ => eq_refl))
    as (Hok & _ & Hblob & _ & Hmodals & _).
  exact (conj eq_refl (conj Hok (conj Hblob (f_equal Dashboard.modalOpen Hmodals)))).
Defined.

Lemma rejected_upload_changes_nothing_witness :
  let path := "user_uploads/u2/doc1-report.pdf" in
  let r := Handler.run
             (Dashboard.handleCreate (Scenario.failing_with "storage/unauthorized"))
             Scenario.roomy_vault Scenario.stocked_world in
  Handler.log (snd r)
  = [ Sdk.Call (Sdk.UploadBytesResumable path Scenario.report)
               (Some "storage/unauthorized");
      Sdk.ConsoleError ]
  /\ Sdk.storage (Handler.world (snd r)) = Sdk.storage Scenario.stocked_world
  /\ Sdk.firestore (Handler.world (snd r)) = Sdk.firestore Scenario.stocked_world
  /\ Dashboard.form (Handler.ui (snd r)) = Dashboard.form Scenario.roomy_vault.
Proof.
  destruct (rejected_upload_changes_nothing
              (Scenario.failing_with "storage/unauthorized")
              Scenario.roomy_vault Scenario.stocked_world Scenario.bob
              Scenario.report "storage/unauthorized"
              eq_refl eq_refl eq_refl (le_n 5) eq_refl)
    as (_ & Hlog & Hblob & Hdocs & _ & Hform & _).
  exact (conj Hlog (conj Hblob (conj Hdocs Hform))).
Defined.

Lemma upload_without_record_never_settles_witness :
  let path := "user_uploads/u2/doc1-report.pdf" in
  let r := Handler.run (Dashboard.handleCreate Scenario.read_only)
                       Scenario.roomy_vault Scenario.stocked_world in
  fst r = Handler.Pending
  /\ Sdk.storage (Handler.world (snd r))
     = <[path := Scenario.report]> (Sdk.storage Scenario.stocked_world)
  /\ Sdk.firestore (Handler.world (snd r)) = Sdk.firestore Scenario.stocked_world
  /\ Dashboard.isSubmitting (Dashboard.view (Handler.ui (snd r))) = true.
Proof.
  assert (Hrejects : forall data,
             Sdk.fault Scenario.read_only
               (Sdk.AddDoc (Spec.user_collection Scenario.bob "files") data)
             <> None) by discriminate.
  destruct (upload_without_record_never_settles Scenario.read_only
              Scenario.roomy_vault Scenario.stocked_world Scenario.bob
              Scenario.report eq_refl eq_refl eq_refl (le_n 5) eq_refl
              (or_intror Hrejects))
    as (Hpending & Hblob & Hdocs & _ & Hsub & _).
  exact (conj Hpending (conj Hblob (conj Hdocs Hsub))).
Defined.

Lemma form_kept_on_failure_cleared_on_success_witness :
  let st := Scenario.form_open Dashboard.note Dashboard.FormData.initial in
  let r := Handler.run (Dashboard.handleCreate Scenario.read_only) st
                       Scenario.stocked_world in
  fst r = Handler.Ok tt
  /\ Dashboard.modals (Handler.ui (snd r)) = Dashboard.modals st
  /\ Dashboard.form (Handler.ui (snd r)) = Dashboard.form st
  /\ Sdk.firestore (Handler.world (snd r)) = Sdk.firestore Scenario.stocked_world.
Proof.
  assert (Hkind : Dashboard.note <> Dashboard.file) by discriminate.
  destruct (form_kept_on_failure_cleared_on_success Scenario.read_only
              (Scenario.form_open Dashboard.note Dashboard.FormData.initial)
              Scenario.stocked_world Scenario.bob Dashboard.note
              eq_refl eq_refl Hkind)
    as (Hok & _ & _ & _ & Hrejected).
  assert (Hrejects : forall coll data,
             Sdk.fault Scenario.read_only (Sdk.AddDoc coll data) <> None)
    by discriminate.
  destruct (Hrejected Hrejects) as (Hmodals & Hform & Hdocs & _).
  exact (conj Hok (conj Hmodals (conj Hform Hdocs))).
Defined.

Lemma confirmDeletion_scope_witness :
  let r := Handler.run (Dashboard.confirmDeletion Scenario.reliable)
                       (Scenario.confirming Scenario.delete_report)
                       Scenario.stocked_world in
  fst r = Handler.Ok tt
  /\ Sdk.docsAt "users/u2/folders" (Handler.world (snd r)) = [Scenario.folder_doc]
  /\ Dashboard.isSubmitting (Dashboard.view (Handler.ui (snd r))) = false.
Proof.
  destruct (confirmDeletion_scope Scenario.reliable
              (Scenario.confirming Scenario.delete_report) Scenario.stocked_world
              Scenario.bob Scenario.delete_report eq_refl eq_refl)
    as (Hok & Hsub & _ & Hother & _).
  assert (Hne : "users/u2/folders" <> "users/u2/files") by discriminate.
  exact (conj Hok (conj (Hother "users/u2/folders" Hne) Hsub)).
Defined.

Lemma search_ignores_case_of_query_witness :
  let upper := Dashboard.setSearchQuery "REPORT" Scenario.stocked_vault in
  let lower := Dashboard.setSearchQuery "report" Scenario.stocked_vault in
  Js.toUpperCase "report" = "REPORT"
  /\ Dashboard.filteredFiles upper = Dashboard.filteredFiles lower
  /\ map Dashboard.FileItem.name (Dashboard.filteredFiles lower) = ["Report-2.PDF"]
  /\ Dashboard.filteredFolders upper = Dashboard.filteredFolders lower
  /\ Dashboard.filteredFolders lower = [Scenario.reports_folder].
Proof.
  destruct (search_ignores_case_of_query Scenario.stocked_vault "report" eq_refl)
    as (Hfiles & Hfolders & _).
  exact (conj eq_refl (conj Hfiles (conj eq_refl (conj Hfolders eq_refl)))).
Defined.

Lemma open_folder_shows_its_files_witness :
  let st := Scenario.stocked_vault in
  let st' := Dashboard.clickFolder Scenario.reports_folder st in
  Dashboard.filteredFolders st = [Scenario.reports_folder]
  /\ (Scenario.filed_report ∉ Dashboard.filteredFiles st)
  /\ Dashboard.filteredFolders st' = []
  /\ (Scenario.filed_report ∈ Dashboard.filteredFiles st')
  /\ Dashboard.filteredFiles (Dashboard.clickRoot st') = Dashboard.filteredFiles st.
Proof.
  assert (Hid : Dashboard.FolderItem.id Scenario.reports_folder <> "")
    by discriminate.
  assert (Hnames : forall x,
             x ∈ Dashboard.d_files (Dashboard.data Scenario.stocked_vault) ->
             Js.ascii_only (Dashboard.FileItem.name x) = true).
  { intros x Hx.
    apply (proj1 (elem_of_cons _ x _)) in Hx as [-> | Hx]; [reflexivity|].
    apply (proj1 (elem_of_cons _ x _)) in Hx as [-> | Hx]; [reflexivity|].
    apply (proj1 (elem_of_cons _ x _)) in Hx as [-> | Hx]; [reflexivity|].
    destruct (proj1 (elem_of_nil x) Hx). }
  destruct (open_folder_shows_its_files Scenario.stocked_vault
              Scenario.reports_folder Hid eq_refl Hnames)
    as (_ & Hfolders & Hfiles & Hroot & _).
  assert (Hlisted : Scenario.filed_report
                    ∈ Dashboard.d_files (Dashboard.data Scenario.stocked_vault)).
  { right. right. left. }
  assert (Hhidden : Scenario.filed_report
                    ∉ Dashboard.filteredFiles Scenario.stocked_vault).
  { intros Hin.
    apply (proj1 (elem_of_cons _ _ _)) in Hin as [Heq | Hin]; [discriminate Heq|].
    apply (proj1 (elem_of_cons _ _ _)) in Hin as [Heq | Hin]; [discriminate Heq|].
    destruct (proj1 (elem_of_nil _) Hin). }
  exact (conj eq_refl
           (conj Hhidden
              (conj Hfolders
                 (conj (proj2 (Hfiles Scenario.filed_report)
                          (conj Hlisted (conj eq_refl eq_refl)))
                       Hroot)))).
Defined.

Lemma created_folder_is_listed_first_witness :
  let st := Scenario.form_open Dashboard.folder Dashboard.FormData.initial in
  let s := snd (Handler.run (Dashboard.handleCreate Scenario.reliable) st
                            Scenario.shelved_world) in
  Dashboard.d_folders (Dashboard.data (Dashboard.synchronise Scenario.shelved_world st))
  = [Scenario.archive_folder; Scenario.reports_folder]
  /\ Dashboard.d_folders
       (Dashboard.data (Dashboard.synchronise (Handler.world s) (Handler.ui s)))
     = [ Dashboard.FolderItem.mk "doc2" "Untitled Folder" (Some 1700000100%Z);
         Scenario.archive_folder; Scenario.reports_folder ].
Proof.
  assert (Hdocs : forall d,
             d ∈ Sdk.docsAt (Spec.user_collection Scenario.bob "folders")
                            Scenario.shelved_world ->
             d = Scenario.folder_doc \/ d = Scenario.archive_doc).
  { intros d Hd.
    apply (proj1 (elem_of_cons _ d _)) in Hd as [-> | Hd]; [by left|].
    apply (proj1 (elem_of_cons _ d _)) in Hd as [-> | Hd]; [by right|].
    destruct (proj1 (elem_of_nil d) Hd). }
  assert (Hold : forall d t,
             d ∈ Sdk.docsAt (Spec.user_collection Scenario.bob "folders")
                            Scenario.shelved_world ->
             Dashboard.time_field "createdAt" (Sdk.doc_data d) = Some t ->
             (t < Sdk.clock Scenario.shelved_world)%Z).
  { intros d t Hd Ht.
    destruct (Hdocs d Hd) as [-> | ->]; injection Ht as <-; reflexivity. }
  assert (Hdistinct : forall d1 d2 t,
             d1 ∈ Sdk.docsAt (Spec.user_collection Scenario.bob "folders")
                             Scenario.shelved_world ->
             d2 ∈ Sdk.docsAt (Spec.user_collection Scenario.bob "folders")
                             Scenario.shelved_world ->
             Dashboard.time_field "createdAt" (Sdk.doc_data d1) = Some t ->
             Dashboard.time_field "createdAt" (Sdk.doc_data d2) = Some t ->
             d1 = d2).
  { intros d1 d2 t H1 H2 Ht1 Ht2.
    destruct (Hdocs d1 H1) as [-> | ->], (Hdocs d2 H2) as [-> | ->];
      first [reflexivity | injection Ht1 as <-; discriminate Ht2]. }
  split; [reflexivity|].
  exact (created_folder_is_listed_first Scenario.reliable
           (Scenario.form_open Dashboard.folder Dashboard.FormData.initial)
           Scenario.shelved_world Scenario.bob eq_refl eq_refl
           (fun _ _ => eq_refl) Hold Hdistinct).
Defined.

Lemma loading_ends_with_members_snapshot_witness :
  let st := Scenario.loading_vault in
  let st' := Dashboard.synchronise Scenario.stocked_world st in
  Dashboard.render st = None
  /\ Dashboard.d_files (Dashboard.data st') = [Scenario.filed_report]
  /\ Dashboard.isLoading (Dashboard.view st') = false
  /\ Dashboard.render st' = Some (Dashboard.content st').
Proof.
  destruct (loading_ends_with_members_snapshot Scenario.loading_vault
              Scenario.stocked_world) as (_ & _ & Hloaded).
  destruct (Hloaded Scenario.bob eq_refl eq_refl) as (Hflag & Hpage).
  exact (conj eq_refl (conj eq_refl (conj Hflag Hpage))).
Defined.

Lemma getInitials_never_empty_witness :
  MockDashboard.getInitials (Some Scenario.bob) None = "BO"
  /\ MockDashboard.getInitials (Some Scenario.bob) (Some "Robert") = "RO".
Proof.
  assert (Hmail : forall u, Some Scenario.bob = Some u ->
                            Js.ascii_only (Sdk.user_email u) = true).
  { intros u Hu. injection Hu as <-. reflexivity. }
  assert (Hnone : forall n, @None string = Some n -> Js.ascii_only n = true).
  { intros n Hn. discriminate Hn. }
  assert (Hname : forall n, Some "Robert" = Some n -> Js.ascii_only n = true).
  { intros n Hn. injection Hn as <-. reflexivity. }
  destruct (getInitials_never_empty (Some Scenario.bob) None Hnone Hmail)
    as (_ & _ & _ & Hemail).
  destruct (getInitials_never_empty (Some Scenario.bob) (Some "Robert") Hname Hmail)
    as (_ & Hgiven & _).
  assert (Hbob : Sdk.user_email Scenario.bob <> "") by discriminate.
  assert (Hrobert : "Robert" <> "") by discriminate.
  exact (conj (Hemail eq_refl Scenario.bob eq_refl Hbob)
              (Hgiven "Robert" eq_refl Hrobert)).
Defined.

Lemma upload_then_delete_restores_witness :
  let s1 := snd (Handler.run (Dashboard.handleCreate Scenario.reliable)
                             Scenario.roomy_vault Scenario.stocked_world) in
  let st1 := Dashboard.synchronise (Handler.world s1) (Handler.ui s1) in
  exists item,
    item ∈ Dashboard.d_files (Dashboard.data st1)
    /\ Dashboard.FileItem.name item = "report.pdf"
    /\ Dashboard.FileItem.storagePath item = "user_uploads/u2/doc1-report.pdf"
    /\ let s2 := snd (Handler.run (Dashboard.confirmDeletion Scenario.reliable)
                                  (Dashboard.clickDeleteFile item st1)
                                  (Handler.world s1)) in
       Sdk.storage (Handler.world s2) = Sdk.storage Scenario.stocked_world
       /\ Sdk.docsAt "users/u2/files" (Handler.world s2) = [Scenario.report_doc].
Proof.
  assert (Hfresh : forall d,
             d ∈ Sdk.docsAt (Spec.user_collection Scenario.bob "files")
                            Scenario.stocked_world ->
             Sdk.doc_id d
             <> Sdk.autoId Scenario.reliable
                  (N.succ (Sdk.nonce Scenario.stocked_world))).
  { intros d Hd.
    apply (list_elem_of_singleton d Scenario.report_doc) in Hd. subst d.
    discriminate. }
  destruct (upload_then_delete_restores Scenario.reliable Scenario.roomy_vault
              Scenario.stocked_world Scenario.bob Scenario.report
              eq_refl eq_refl eq_refl (le_n 5) (fun _ => eq_refl) eq_refl Hfresh)
    as (item & Hin & Hname & _ & _ & _ & Hpath & _ & Hblob & Hdocs & _).
  exists item.
  exact (conj Hin (conj Hname (conj Hpath (conj Hblob Hdocs)))).
Defined.

Lemma mock_created_item_is_displayed_witness :
  let st := Scenario.mock_folder_form in
  exists f,
    MockDashboard.displayFolders
      (MockDashboard.handleCreate 1700000000123 1700000000456 st)
    = f :: MockDashboard.displayFolders st
    /\ MockDashboard.FolderItem.name f = "Untitled Folder".
Proof.
  destruct (mock_created_item_is_displayed 1700000000123 1700000000456
              Scenario.mock_folder_form I) as (Hfolder & _).
  destruct (Hfolder eq_refl) as (f & Hshown & Hname & _).
  exists f. exact (conj Hshown Hname).
Defined.

Lemma mock_stale_name_leaks_into_file_witness :
  let st1 := MockDashboard.cancel
               (MockDashboard.typeName "Holidays"
                  (MockDashboard.openModal MockDashboard.folder
                     Scenario.mock_idle)) in
  let st2 := MockDashboard.pickFile (Some Scenario.report)
               (MockDashboard.openModal MockDashboard.file st1) in
  let st3 := MockDashboard.handleCreate 1700000000123 1700000000456 st2 in
  MockDashboard.folders st3 = []
  /\ exists f, MockDashboard.files st3 = [f]
               /\ MockDashboard.FileItem.name f = "Holidays"
               /\ MockDashboard.FileItem.size f = 2048%Z.
Proof.
  assert (Htyped : "Holidays" <> "") by discriminate.
  destruct (mock_stale_name_leaks_into_file 1700000000123 1700000000456
              Scenario.mock_idle "Holidays" Scenario.report Htyped)
    as (Hfolders & f & Hfiles & Hname & Hsize).
  split; [exact Hfolders|].
  exists f. exact (conj Hfiles (conj Hname Hsize)).
Defined.
